(** * A moderation-gated console chatbot: shallow embedding of [chatbot.py]

    The program reads lines from the console, sends every user line and
    every model reply through a moderation check, and records flagged text
    in a file that it stages, commits and pushes with git.

    The embedding follows the Python text function by function.  Calls to
    the outside world (the moderation and completion services, the clock,
    git) are answered by an environment [Env]; every such call, and every
    console read or write, is appended to a trace of events.  Python
    exceptions are the [Raises] outcome of a small state-and-exception
    monad; the exceptions are instances of Python's [Exception], the
    ones an [except Exception] clause catches ([KeyboardInterrupt] and
    [SystemExit] are not among them).

    A call to one of the two services or to git may return or raise, the
    write of the artifact file may succeed or raise, and the console may
    reach its end.  Printing and reading the clock are taken to succeed.
    The file map of a state holds what the program's own writes leave in
    the working directory; what the git commands do to the repository
    under [.git] is not followed.  Text is a Rocq [string], read as a
    sequence of code points below 256, and the [str] methods the program
    uses ([lower], [strip]) are Python's on that range. *)

From stdpp Require Import gmap strings list.
From Stdlib Require Import Ascii.

(** ** Python strings *)

Module Py.

(** The newline character, written [\n] in the source. *)
Definition nl : string := String "010"%char EmptyString.

(** [str.isspace] on one character: tab, line feed, vertical tab, form
    feed, carriage return, the four separators 0x1c-0x1f, the space, next
    line (0x85) and the no-break space (0xa0). *)
Definition isspace (c : ascii) : bool :=
  match c with
  | "009" | "010" | "011" | "012" | "013"
  | "028" | "029" | "030" | "031" | " "
  | "133" | "160" => true
  | _ => false
  end%char.

Fixpoint all_space (s : string) : bool :=
  match s with
  | EmptyString => true
  | String c s' => isspace c && all_space s'
  end.

Fixpoint lstrip (s : string) : string :=
  match s with
  | EmptyString => EmptyString
  | String c s' => if isspace c then lstrip s' else s
  end.

Fixpoint rstrip (s : string) : string :=
  match s with
  | EmptyString => EmptyString
  | String c s' => if all_space s then EmptyString else String c (rstrip s')
  end.

(** [str.strip()] without argument. *)
Definition strip (s : string) : string := lstrip (rstrip s).

(** [str.lower()] on one character: the letters A-Z, and the capital
    letters 0xc0-0xde of Latin-1 (0xd7 is the multiplication sign). *)
Definition lower_char (c : ascii) : ascii :=
  let n := nat_of_ascii c in
  if (65 <=? n)%nat && (n <=? 90)%nat
     || (192 <=? n)%nat && (n <=? 222)%nat && negb (n =? 215)%nat
  then ascii_of_nat (n + 32) else c.

Fixpoint lower (s : string) : string :=
  match s with
  | EmptyString => EmptyString
  | String c s' => String (lower_char c) (lower s')
  end.

Definition first_char (s : string) : option ascii :=
  match s with
  | EmptyString => None
  | String c _ => Some c
  end.

Fixpoint last_char (s : string) : option ascii :=
  match s with
  | EmptyString => None
  | String c EmptyString => Some c
  | String _ s' => last_char s'
  end.

Fixpoint chars (s : string) : list ascii :=
  match s with
  | EmptyString => []
  | String c s' => c :: chars s'
  end.

End Py.

(** ** [datetime] and [strftime("%Y%m%d_%H%M%S")] *)

Record datetime := {
  year : N; month : N; day : N;
  hour : N; minute : N; second : N
}.

(** The ranges of the fields of a Python [datetime] object. *)
Definition valid_datetime (d : datetime) : Prop :=
  (1 <= year d <= 9999 /\ 1 <= month d <= 12 /\ 1 <= day d <= 31 /\
   hour d < 24 /\ minute d < 60 /\ second d < 60)%N.

Definition digit (n : N) : ascii := ascii_of_N (48 + n mod 10).

(** [%m], [%d], [%H], [%M], [%S]: two digits, zero padded. *)
Definition pad2 (n : N) : string :=
  String (digit (n / 10)) (String (digit n) EmptyString).

(** [%Y]: the year with century as a decimal number, four digits, zero
    padded (years before 1000 are padded by Python 3.13 and later on
    every platform). *)
Definition pad4 (n : N) : string :=
  String (digit (n / 1000)) (String (digit (n / 100)) (pad2 n)).

Definition strftime (d : datetime) : string :=
  pad4 (year d) +:+ pad2 (month d) +:+ pad2 (day d) +:+ "_" +:+
  pad2 (hour d) +:+ pad2 (minute d) +:+ pad2 (second d).

(** ** Exceptions and outcomes *)

Inductive ExcClass :=
| CalledProcessError   (* subprocess: the command ran and exited non-zero *)
| OSError              (* a command that could not be started, a file that
                          could not be opened or written *)
| IndexError
| AttributeError
| EOFError
| ValueError
| APIError.            (* anything raised inside the OpenAI client *)

Record PyExc := { exc_class : ExcClass; exc_str : string }.

Global Instance ExcClass_eq_dec : EqDecision ExcClass.
Proof. solve_decision. Defined.

Inductive Outcome (A : Type) :=
| Returns (a : A)
| Raises (e : PyExc).
Arguments Returns {A} a.
Arguments Raises {A} e.

(** What [with open(filename, "w") as f: f.write(data)] comes to.  The
    file is written, or an exception is raised: before the file was
    opened ([remains] is [None], the directory is as it was) or after it
    was created or truncated ([remains] is what the file holds then). *)
Inductive WriteAnswer :=
| Written
| WriteFails (e : PyExc) (remains : option string).

(** ** Service responses and conversation messages *)

Record Moderation := { flagged : bool }.
Record ModerationCreateResponse := { results : list Moderation }.

Record ChatCompletionMessage := { reply_content : option string }.
Record Choice := { message : ChatCompletionMessage }.
Record ChatCompletion := { choices : list Choice }.

(** One entry of the [messages] list: the dict [{"role": .., "content": ..}]. *)
Record Message := { role : string; content : string }.

Global Instance Message_eq_dec : EqDecision Message.
Proof. solve_decision. Defined.

(** ** The environment and the trace of interactions *)

Inductive Event :=
| EvInput (prompt : string) (line : option string)
| EvPrint (text : string)
| EvModerate (text : string) (o : Outcome ModerationCreateResponse)
| EvComplete (msgs : list Message) (o : Outcome ChatCompletion)
| EvNow (d : datetime)
| EvWrite (filename : string) (data : string)
| EvWriteFailed (filename : string) (data : string) (e : PyExc)
    (remains : option string)
| EvRun (argv : list string) (o : Outcome unit).

(** Answers of the outside world.  The [nat] is the number of events that
    happened before the call, so an answer may change over time. *)
Record Env := {
  getenv_OPENAI_API_KEY : option string;
  moderations_create : nat -> string -> Outcome ModerationCreateResponse;
  chat_completions_create : nat -> list Message -> Outcome ChatCompletion;
  datetime_now : nat -> datetime;
  file_write : nat -> string -> string -> WriteAnswer;
  subprocess_run : nat -> list string -> Outcome unit
}.

(** The state a session runs in: the local list [messages] of
    [run_chatbot], the files of the working directory as the program's
    own writes leave them, and the trace. *)
Record State := {
  messages : list Message;
  files : gmap string string;
  trace : list Event
}.

Definition initial_state (fs : gmap string string) : State :=
  {| messages := []; files := fs; trace := [] |}.

(** ** The monad *)

Definition M (A : Type) : Type := State -> Outcome A * State.

Definition ret {A} (a : A) : M A := fun s => (Returns a, s).

Definition raise {A} (e : PyExc) : M A := fun s => (Raises e, s).

Definition bind {A B} (m : M A) (k : A -> M B) : M B :=
  fun s => match m s with
           | (Returns a, s') => k a s'
           | (Raises e, s') => (Raises e, s')
           end.

Notation "'let*' x ':=' m 'in' k" := (bind m (fun x => k))
  (at level 10, x name, m at level 100, k at level 200).
Notation "m '>>' k" := (bind m (fun _ => k))
  (at level 100, k at level 200).

(** [try: body  except <classes>: handler]. *)
Definition try_except {A} (body : M A) (catches : PyExc -> bool)
    (handler : PyExc -> M A) : M A :=
  fun s => match body s with
           | (Raises e, s') => if catches e then handler e s' else (Raises e, s')
           | r => r
           end.

(** [except Exception]. *)
Definition Exception (e : PyExc) : bool := true.

(** [except subprocess.CalledProcessError]. *)
Definition is_CalledProcessError (e : PyExc) : bool :=
  bool_decide (exc_class e = CalledProcessError).

(** Appending events to the trace. *)
Definition logs (evs : list Event) (s : State) : State :=
  {| messages := messages s; files := files s; trace := trace s ++ evs |}.

Definition log (ev : Event) (s : State) : State := logs [ev] s.

Definition print (text : string) : M unit :=
  fun s => (Returns tt, log (EvPrint text) s).

(** [messages.append(m)]. *)
Definition messages_append (m : Message) : M unit :=
  fun s => (Returns tt,
            {| messages := messages s ++ [m]; files := files s; trace := trace s |}).

(** [messages = l]. *)
Definition messages_assign (l : list Message) : M unit :=
  fun s => (Returns tt, {| messages := l; files := files s; trace := trace s |}).

Definition get_messages : M (list Message) := fun s => (Returns (messages s), s).

(** The file map after a write of [data] to [filename] was answered
    by [a]. *)
Definition after_write (filename data : string) (a : WriteAnswer)
    (fs : gmap string string) : gmap string string :=
  match a with
  | Written => <[filename := data]> fs
  | WriteFails _ (Some d) => <[filename := d]> fs
  | WriteFails _ None => fs
  end.

(** [l[0]]. *)
Definition index0 {A} (l : list A) : M A :=
  match l with
  | x :: _ => ret x
  | [] => raise {| exc_class := IndexError; exc_str := "list index out of range" |}
  end.

(** [content.strip()], where [content] may be [None]. *)
Definition strip_content (c : option string) : M string :=
  match c with
  | Some text => ret (Py.strip text)
  | None => raise {| exc_class := AttributeError;
                     exc_str := "'NoneType' object has no attribute 'strip'" |}
  end.

(** ** The program *)

Definition artifact_name (timestamp : string) : string :=
  "flagged_event_" +:+ timestamp +:+ ".txt".

Definition artifact_header (timestamp : string) : string :=
  "Flagged content detected at " +:+ timestamp +:+ Py.nl +:+
  "Offending text:" +:+ Py.nl.

Definition artifact_body (timestamp offending_text : string) : string :=
  artifact_header timestamp +:+ offending_text +:+ Py.nl.

Definition git_add (filename : string) : list string :=
  ["git"; "add"; filename].

Definition git_commit (filename : string) : list string :=
  ["git"; "commit"; "-m"; "Add flagged content file " +:+ filename].

Definition git_push : list string :=
  ["git"; "push"; "origin"; "main"].

Definition pushed_notice (filename : string) : string :=
  "Pushed flagged file " +:+ filename +:+ " to repo, triggering CircleCI pipeline.".

Definition push_error_notice (e : PyExc) : string :=
  "Error pushing flagged content file: " +:+ exc_str e.

Definition moderation_error_notice (e : PyExc) : string :=
  "Moderation API error: " +:+ exc_str e.

Definition error_notice (e : PyExc) : string := "Error: " +:+ exc_str e.

Definition system_message : Message :=
  {| role := "system";
     content := "You are a helpful assistant specialized in technology topics." |}.

Definition user_message (text : string) : Message :=
  {| role := "user"; content := text |}.

Definition assistant_message (text : string) : Message :=
  {| role := "assistant"; content := text |}.

Definition placeholder : Message := assistant_message "[Blocked content]".

Definition goodbye : string := "Assistant: Goodbye!".

Definition user_blocked_notice : string :=
  "Assistant: [User content flagged by moderation. Not processed.]".

Definition model_blocked_notice : string :=
  "Assistant: [Model output flagged by moderation. Not displayed.]".

(** [f"Assistant: {assistant_reply}\n"]. *)
Definition display (assistant_reply : string) : string :=
  "Assistant: " +:+ assistant_reply +:+ Py.nl.

Definition banner : string :=
  Py.nl +:+
  "=== GPT-3.5-Turbo Chatbot (Moderate User & Model, then Commit Flagged File) ===".

Definition usage : string :=
  "Type 'exit' or 'quit' to end the session." +:+ Py.nl.

(** [user_input.lower() in ["exit", "quit"]]. *)
Definition is_exit_command (user_input : string) : bool :=
  bool_decide (Py.lower user_input ∈ ["exit"; "quit"]).

(** How one pass through the body of [while True] leaves it. *)
Inductive LoopCtl := Continue | Break.

Section Program.

Variable env : Env.

Definition call_moderations_create (text : string) : M ModerationCreateResponse :=
  fun s => let o := moderations_create env (length (trace s)) text in
           (o, log (EvModerate text o) s).

(** [client.chat.completions.create(model="gpt-3.5-turbo", messages=..,
    temperature=0.7, max_tokens=150)]; the three constants are the same
    at every call. *)
Definition call_chat_completions_create (msgs : list Message) : M ChatCompletion :=
  fun s => let o := chat_completions_create env (length (trace s)) msgs in
           (o, log (EvComplete msgs o) s).

Definition call_datetime_now : M datetime :=
  fun s => let d := datetime_now env (length (trace s)) in
           (Returns d, log (EvNow d) s).

(** [with open(filename, "w") as f: f.write(data)]: the file is created,
    or truncated when it exists, and then holds [data]; or the statement
    raises. *)
Definition open_write (filename data : string) : M unit :=
  fun s => let a := file_write env (length (trace s)) filename data in
           let s' := {| messages := messages s;
                        files := after_write filename data a (files s);
                        trace := trace s |} in
           match a with
           | Written => (Returns tt, log (EvWrite filename data) s')
           | WriteFails e remains =>
               (Raises e, log (EvWriteFailed filename data e remains) s')
           end.

(** [subprocess.run(argv, check=True)]. *)
Definition call_subprocess_run (argv : list string) : M unit :=
  fun s => let o := subprocess_run env (length (trace s)) argv in
           (o, log (EvRun argv o) s).

Definition record_flagged_content (offending_text : string) : M unit :=
  let* now := call_datetime_now in
  let timestamp := strftime now in
  let filename := artifact_name timestamp in
  open_write filename (artifact_body timestamp offending_text) >>
  try_except
    (call_subprocess_run (git_add filename) >>
     call_subprocess_run (git_commit filename) >>
     call_subprocess_run git_push >>
     print (pushed_notice filename))
    is_CalledProcessError
    (fun e => print (push_error_notice e)).

Definition initialize_openai_client : M unit :=
  match getenv_OPENAI_API_KEY env with
  | None | Some EmptyString =>
      raise {| exc_class := ValueError; exc_str := "OPENAI_API_KEY not set." |}
  | Some _ => ret tt
  end.

Definition moderate_text (text : string) : M bool :=
  try_except
    (let* response := call_moderations_create text in
     let* first := index0 (results response) in
     ret (flagged first))
    Exception
    (fun e => print (moderation_error_notice e) >> ret true).

(** The body of the loop after [user_input = input("User: ")]. *)
Definition loop_body (user_input : string) : M LoopCtl :=
  if is_exit_command user_input then
    print goodbye >> ret Break
  else
    let* user_flagged := moderate_text user_input in
    if (user_flagged : bool) then
      print user_blocked_notice >>
      record_flagged_content user_input >>
      ret Continue
    else
      messages_append (user_message user_input) >>
      try_except
        (let* history := get_messages in
         let* response := call_chat_completions_create history in
         let* choice := index0 (choices response) in
         let* assistant_reply := strip_content (reply_content (message choice)) in
         let* model_flagged := moderate_text assistant_reply in
         if (model_flagged : bool) then
           print model_blocked_notice >>
           messages_append placeholder >>
           record_flagged_content assistant_reply >>
           ret Continue
         else
           print (display assistant_reply) >>
           messages_append (assistant_message assistant_reply) >>
           ret Continue)
        Exception
        (fun e => print (error_notice e) >> ret Break).

(** [input("User: ")] on the lines the console still holds; at end of
    input Python raises [EOFError]. *)
Definition input (stdin : list string) : M string :=
  fun s => match stdin with
           | line :: _ => (Returns line, log (EvInput "User: " (Some line)) s)
           | [] => (Raises {| exc_class := EOFError;
                              exc_str := "EOF when reading a line" |},
                    log (EvInput "User: " None) s)
           end.

(** One pass through the loop: read a line, run the body on it. *)
Definition turn (user_input : string) : M LoopCtl :=
  let* line := input [user_input] in loop_body line.

(** [while True: ...] over the lines the console will deliver. *)
Fixpoint chat_loop (stdin : list string) : M unit :=
  match stdin with
  | [] => input [] >> ret tt
  | user_input :: rest =>
      let* ctl := turn user_input in
      match ctl with
      | Break => ret tt
      | Continue => chat_loop rest
      end
  end.

(** Everything [run_chatbot] does before the loop. *)
Definition startup : M unit :=
  initialize_openai_client >>
  print banner >>
  print usage >>
  messages_assign [system_message].

Definition run_chatbot (stdin : list string) : M unit :=
  startup >> chat_loop stdin.

End Program.

(** ** Reading outcomes and traces *)

(** What the moderation gate makes of an answer of the service. *)
Definition verdict (o : Outcome ModerationCreateResponse) : bool :=
  match o with
  | Returns response =>
      match results response with
      | first :: _ => flagged first
      | [] => true
      end
  | Raises _ => true
  end.

(** The exception, if any, that [moderate_text] catches on an answer. *)
Definition gate_error (o : Outcome ModerationCreateResponse) : option PyExc :=
  match o with
  | Returns response =>
      match results response with
      | _ :: _ => None
      | [] => Some {| exc_class := IndexError; exc_str := "list index out of range" |}
      end
  | Raises e => Some e
  end.

Definition gate_events (text : string) (o : Outcome ModerationCreateResponse)
    : list Event :=
  EvModerate text o ::
  match gate_error o with
  | Some e => [EvPrint (moderation_error_notice e)]
  | None => []
  end.

(** [response.choices[0].message.content.strip()] on an answer of the
    completion service. *)
Definition completion_reply (o : Outcome ChatCompletion) : Outcome string :=
  match o with
  | Returns response =>
      match choices response with
      | choice :: _ =>
          match reply_content (message choice) with
          | Some text => Returns (Py.strip text)
          | None => Raises {| exc_class := AttributeError;
                              exc_str := "'NoneType' object has no attribute 'strip'" |}
          end
      | [] => Raises {| exc_class := IndexError; exc_str := "list index out of range" |}
      end
  | Raises e => Raises e
  end.

Definition is_completion (ev : Event) : bool :=
  match ev with EvComplete _ _ => true | _ => false end.

Definition is_input (ev : Event) : bool :=
  match ev with EvInput _ _ => true | _ => false end.

Definition is_flagged_verdict (ev : Event) : bool :=
  match ev with EvModerate _ o => verdict o | _ => false end.

Definition is_write (ev : Event) : bool :=
  match ev with
  | EvWrite _ _ | EvWriteFailed _ _ _ _ => true
  | _ => false
  end.

(** [text] went through a moderation check that came out clean. *)
Definition clean_checked (tr : list Event) (text : string) : Prop :=
  exists o, EvModerate text o ∈ tr /\ verdict o = false.

(** Where an entry of the history may come from. *)
Definition justified (tr : list Event) (m : Message) : Prop :=
  m = system_message \/ m = placeholder \/
  ((role m = "user" \/ role m = "assistant") /\ clean_checked tr (content m)).

(** States in which the loop is about to read a line. *)
Inductive at_prompt (env : Env) (fs : gmap string string) : State -> Prop :=
| at_prompt_start s :
    startup env (initial_state fs) = (Returns tt, s) -> at_prompt env fs s
| at_prompt_next s line s' :
    at_prompt env fs s -> turn env line s = (Returns Continue, s') ->
    at_prompt env fs s'.

(** States a session passes through: at the prompt, and after any pass
    through the loop, whether it continues, ends or raises. *)
Inductive reachable (env : Env) (fs : gmap string string) : State -> Prop :=
| reach_prompt s : at_prompt env fs s -> reachable env fs s
| reach_turn s line : at_prompt env fs s -> reachable env fs (snd (turn env line s))
| reach_eof s : at_prompt env fs s -> reachable env fs (snd (input [] s)).
(** ** The publish sequence *)

(** The three git commands of one publish attempt, in program order. *)
Definition publish_steps (filename : string) : list (list string) :=
  [git_add filename; git_commit filename; git_push].

(** Running commands one after the other from time [n] until one raises:
    the events this leaves, and the exception that stopped it. *)
Fixpoint run_steps (env : Env) (n : nat) (steps : list (list string))
    : list Event * option PyExc :=
  match steps with
  | [] => ([], None)
  | argv :: rest =>
      match subprocess_run env n argv with
      | Returns u =>
          let '(evs, stop) := run_steps env (S n) rest in
          (EvRun argv (Returns u) :: evs, stop)
      | Raises e => ([EvRun argv (Raises e)], Some e)
      end
  end.

(** What [record_flagged_content] prints after the publish sequence, and
    how it leaves: a [CalledProcessError] is reported, any other exception
    goes on to the caller. *)
Definition publish_report (filename : string) (stop : option PyExc) : list Event :=
  match stop with
  | None => [EvPrint (pushed_notice filename)]
  | Some e => if is_CalledProcessError e then [EvPrint (push_error_notice e)] else []
  end.

Definition publish_outcome (stop : option PyExc) : Outcome unit :=
  match stop with
  | None => Returns tt
  | Some e => if is_CalledProcessError e then Returns tt else Raises e
  end.

(** The answer to the write of the artifact, when
    [record_flagged_content] is called at time [n]. *)
Definition recorder_write (env : Env) (n : nat) (offending_text : string)
    : WriteAnswer :=
  let timestamp := strftime (datetime_now env n) in
  file_write env (S n) (artifact_name timestamp)
    (artifact_body timestamp offending_text).

(** The events of one call of [record_flagged_content] at time [n]. *)
Definition recorder_events (env : Env) (n : nat) (offending_text : string)
    : list Event :=
  let d := datetime_now env n in
  let filename := artifact_name (strftime d) in
  let data := artifact_body (strftime d) offending_text in
  EvNow d ::
  match recorder_write env n offending_text with
  | Written =>
      EvWrite filename data ::
      (run_steps env (2 + n) (publish_steps filename)).1 ++
      publish_report filename (run_steps env (2 + n) (publish_steps filename)).2
  | WriteFails e remains => [EvWriteFailed filename data e remains]
  end.

Definition recorder_outcome (env : Env) (n : nat) (offending_text : string)
    : Outcome unit :=
  match recorder_write env n offending_text with
  | Written =>
      publish_outcome
        (run_steps env (2 + n)
           (publish_steps (artifact_name (strftime (datetime_now env n))))).2
  | WriteFails e _ => Raises e
  end.

Definition recorder_file (env : Env) (n : nat) (offending_text : string)
    (fs : gmap string string) : gmap string string :=
  let timestamp := strftime (datetime_now env n) in
  after_write (artifact_name timestamp) (artifact_body timestamp offending_text)
    (recorder_write env n offending_text) fs.

(** ** One pass through the loop, case by case *)

(** The state in which the completion service is called: the user line
    has been read, checked with answer [o], and appended to the history. *)
Definition forwarded (line : string) (o : Outcome ModerationCreateResponse)
    (s : State) : State :=
  {| messages := messages s ++ [user_message line];
     files := files s;
     trace := trace s ++ [EvInput "User: " (Some line); EvModerate line o] |}.

Inductive Turn (env : Env) (line : string) (s : State)
    : Outcome LoopCtl -> State -> Prop :=
| turn_exit :
    is_exit_command line = true ->
    Turn env line s (Returns Break)
      (logs [EvInput "User: " (Some line); EvPrint goodbye] s)
| turn_user_blocked o s1 :
    is_exit_command line = false ->
    o = moderations_create env (S (length (trace s))) line ->
    verdict o = true ->
    s1 = logs (EvInput "User: " (Some line) ::
               gate_events line o ++ [EvPrint user_blocked_notice]) s ->
    Turn env line s
      (match (record_flagged_content env line s1).1 with
       | Returns _ => Returns Continue
       | Raises e => Raises e
       end)
      (record_flagged_content env line s1).2
| turn_completion_failed o s1 co e :
    is_exit_command line = false ->
    o = moderations_create env (S (length (trace s))) line ->
    verdict o = false ->
    s1 = forwarded line o s ->
    co = chat_completions_create env (length (trace s1)) (messages s1) ->
    completion_reply co = Raises e ->
    Turn env line s (Returns Break)
      (logs [EvComplete (messages s1) co; EvPrint (error_notice e)] s1)
| turn_reply_shown o s1 co reply o2 :
    is_exit_command line = false ->
    o = moderations_create env (S (length (trace s))) line ->
    verdict o = false ->
    s1 = forwarded line o s ->
    co = chat_completions_create env (length (trace s1)) (messages s1) ->
    completion_reply co = Returns reply ->
    o2 = moderations_create env (S (length (trace s1))) reply ->
    verdict o2 = false ->
    Turn env line s (Returns Continue)
      {| messages := messages s1 ++ [assistant_message reply];
         files := files s1;
         trace := trace s1 ++ [EvComplete (messages s1) co; EvModerate reply o2;
                               EvPrint (display reply)] |}
| turn_reply_blocked o s1 co reply o2 s2 :
    is_exit_command line = false ->
    o = moderations_create env (S (length (trace s))) line ->
    verdict o = false ->
    s1 = forwarded line o s ->
    co = chat_completions_create env (length (trace s1)) (messages s1) ->
    completion_reply co = Returns reply ->
    o2 = moderations_create env (S (length (trace s1))) reply ->
    verdict o2 = true ->
    s2 = {| messages := messages s1 ++ [placeholder];
            files := files s1;
            trace := trace s1 ++ EvComplete (messages s1) co ::
                     gate_events reply o2 ++ [EvPrint model_blocked_notice] |} ->
    Turn env line s
      (match (record_flagged_content env reply s2).1 with
       | Returns _ => Returns Continue
       | Raises _ => Returns Break
       end)
      (match (record_flagged_content env reply s2).1 with
       | Returns _ => (record_flagged_content env reply s2).2
       | Raises e => logs [EvPrint (error_notice e)]
                       (record_flagged_content env reply s2).2
       end).

(** ** The answers of the world during one pass *)

(** The answer to the check of the line read in state [s]. *)
Definition user_check (env : Env) (line : string) (s : State)
    : Outcome ModerationCreateResponse :=
  moderations_create env (S (length (trace s))) line.

(** The answer of the completion service when that line is forwarded. *)
Definition completion (env : Env) (line : string) (s : State)
    : Outcome ChatCompletion :=
  chat_completions_create env (length (trace s) + 2)
    (messages s ++ [user_message line]).

(** The answer to the check of the reply. *)
Definition reply_check (env : Env) (reply : string) (s : State)
    : Outcome ModerationCreateResponse :=
  moderations_create env (length (trace s) + 3) reply.

(** The state in which the Recorder is called on a flagged user line. *)
Definition user_blocked_state (env : Env) (line : string) (s : State) : State :=
  logs (EvInput "User: " (Some line) ::
        gate_events line (user_check env line s) ++ [EvPrint user_blocked_notice]) s.

(** The state in which the Recorder is called on a flagged reply. *)
Definition reply_blocked_state (env : Env) (line reply : string) (s : State)
    : State :=
  {| messages := messages s ++ [user_message line; placeholder];
     files := files s;
     trace := trace s ++
       [EvInput "User: " (Some line); EvModerate line (user_check env line s);
        EvComplete (messages s ++ [user_message line]) (completion env line s)] ++
       gate_events reply (reply_check env reply s) ++
       [EvPrint model_blocked_notice] |}.

(** ** Concrete worlds for examples *)

Module Scenario.

Definition clean_answer : Outcome ModerationCreateResponse :=
  Returns {| results := [{| flagged := false |}] |}.

Definition flagged_answer : Outcome ModerationCreateResponse :=
  Returns {| results := [{| flagged := true |}] |}.

Definition reply_answer (text : string) : Outcome ChatCompletion :=
  Returns {| choices := [{| message := {| reply_content := Some text |} |}] |}.

Definition noon : datetime :=
  {| year := 2024; month := 3; day := 7; hour := 12; minute := 0; second := 0 |}.

(** A moderation service that flags exactly two texts. *)
Definition moderation (_ : nat) (text : string) : Outcome ModerationCreateResponse :=
  if bool_decide (text ∈ ["bad"; "worse"; "rude reply"]) then flagged_answer
  else clean_answer.

(** A completion service that pads its replies with white space, and is
    rude when provoked. *)
Definition chat (_ : nat) (msgs : list Message) : Outcome ChatCompletion :=
  match last msgs with
  | Some m =>
      if bool_decide (content m = "provoke")
      then reply_answer (" rude reply" +:+ Py.nl)
      else reply_answer "  hi there  "
  | None => reply_answer ""
  end.

Definition git_ok (_ : nat) (_ : list string) : Outcome unit := Returns tt.

Definition writes_ok (_ : nat) (_ _ : string) : WriteAnswer := Written.

(** git is not installed: the command cannot be started. *)
Definition git_missing (_ : nat) (_ : list string) : Outcome unit :=
  Raises {| exc_class := OSError;
            exc_str := "[Errno 2] No such file or directory: 'git'" |}.

(** The remote rejects the push: [git push] exits with status 1. *)
Definition push_rejected (_ : nat) (argv : list string) : Outcome unit :=
  if bool_decide (argv = git_push)
  then Raises {| exc_class := CalledProcessError;
                 exc_str := "Command '['git', 'push', 'origin', 'main']' returned non-zero exit status 1." |}
  else Returns tt.

Definition chat_down (_ : nat) (_ : list Message) : Outcome ChatCompletion :=
  Raises {| exc_class := APIError; exc_str := "Connection error." |}.

Definition moderation_down (_ : nat) (_ : string)
    : Outcome ModerationCreateResponse :=
  Raises {| exc_class := APIError; exc_str := "Connection error." |}.

Definition world : Env :=
  {| getenv_OPENAI_API_KEY := Some "sk-test";
     moderations_create := moderation;
     chat_completions_create := chat;
     datetime_now := fun _ => noon;
     file_write := writes_ok;
     subprocess_run := git_ok |}.

Definition world_without_git : Env :=
  {| getenv_OPENAI_API_KEY := Some "sk-test";
     moderations_create := moderation;
     chat_completions_create := chat;
     datetime_now := fun _ => noon;
     file_write := writes_ok;
     subprocess_run := git_missing |}.

Definition world_push_rejected : Env :=
  {| getenv_OPENAI_API_KEY := Some "sk-test";
     moderations_create := moderation;
     chat_completions_create := chat;
     datetime_now := fun _ => noon;
     file_write := writes_ok;
     subprocess_run := push_rejected |}.

Definition world_chat_down : Env :=
  {| getenv_OPENAI_API_KEY := Some "sk-test";
     moderations_create := moderation;
     chat_completions_create := chat_down;
     datetime_now := fun _ => noon;
     file_write := writes_ok;
     subprocess_run := git_ok |}.

Definition world_moderation_down : Env :=
  {| getenv_OPENAI_API_KEY := Some "sk-test";
     moderations_create := moderation_down;
     chat_completions_create := chat;
     datetime_now := fun _ => noon;
     file_write := writes_ok;
     subprocess_run := git_ok |}.

(** The state in which the loop starts. *)
Definition ready : State :=
  {| messages := [system_message];
     files := ∅;
     trace := [EvPrint banner; EvPrint usage] |}.

End Scenario.


(** ** Events of an escalation *)

(** The events [record_flagged_content] can leave behind. *)
Definition is_escalation_event (ev : Event) : Prop :=
  match ev with
  | EvNow _ | EvWrite _ _ | EvWriteFailed _ _ _ _ | EvRun _ _ => True
  | EvPrint text =>
      (exists filename, text = pushed_notice filename) \/
      (exists e, text = push_error_notice e)
  | _ => False
  end.



(** ** Reading an artifact name back *)

Definition is_digit (c : ascii) : bool :=
  let n := N_of_ascii c in (48 <=? n)%N && (n <=? 57)%N.

Definition digit_value (c : ascii) : N := (N_of_ascii c - 48)%N.

(** The number a sequence of decimal digits denotes. *)
Definition number (cs : list ascii) : N :=
  foldl (fun acc c => 10 * acc + digit_value c)%N 0%N cs.

(** The date and time written in a text of the form [YYYYMMDD_HHMMSS]. *)
Definition read_timestamp (timestamp : string) : option datetime :=
  match Py.chars timestamp with
  | [y1; y2; y3; y4; m1; m2; d1; d2; sep; h1; h2; n1; n2; s1; s2] =>
      if forallb is_digit [y1; y2; y3; y4; m1; m2; d1; d2; h1; h2; n1; n2; s1; s2]
         && bool_decide (sep = "_"%char)
      then Some {| year := number [y1; y2; y3; y4];
                   month := number [m1; m2];
                   day := number [d1; d2];
                   hour := number [h1; h2];
                   minute := number [n1; n2];
                   second := number [s1; s2] |}
      else None
  | _ => None
  end.

(** The number of line ends in a text. *)
Fixpoint count_newlines (s : string) : nat :=
  match s with
  | EmptyString => 0
  | String c s' => (if bool_decide (c = "010"%char) then 1 else 0) + count_newlines s'
  end.


(** ** White space at the ends of a text *)

(** Neither the first nor the last character is white space. *)
Definition trimmed (s : string) : Prop :=
  match Py.first_char s with Some c => Py.isspace c = false | None => True end /\
  match Py.last_char s with Some c => Py.isspace c = false | None => True end.



(** ** Safety of a trace *)

(** Whether a flagged verdict has been given since the console was last
    read. *)
Definition quarantine_step (armed : bool) (ev : Event) : bool :=
  match ev with
  | EvInput _ _ => false
  | EvModerate _ o => armed || verdict o
  | _ => armed
  end.

Definition quarantined (tr : list Event) : bool := foldl quarantine_step false tr.

(** Neither a request to the completion service nor a reply shown to the
    user. *)
Definition harmless (ev : Event) : Prop :=
  is_completion ev = false /\ forall reply, ev <> EvPrint (display reply).

(** What must hold of an event [ev] given the events [pre] before it. *)
Definition guarded (pre : list Event) (ev : Event) : Prop :=
  (forall msgs o, ev = EvComplete msgs o -> Forall (justified pre) msgs) /\
  (forall reply, ev = EvPrint (display reply) ->
     exists pre' o, pre = pre' ++ [EvModerate reply o] /\ verdict o = false) /\
  (quarantined pre = true -> harmless ev).

(** [P] holds of every event of [evs] and the events before it, when
    [evs] follows [pre]. *)
Fixpoint each_event (P : list Event -> Event -> Prop) (pre evs : list Event)
    : Prop :=
  match evs with
  | [] => True
  | ev :: evs' => P pre ev /\ each_event P (pre ++ [ev]) evs'
  end.


(** ** The escalations in a trace *)

(** The events that matter for escalation: flagged verdicts, reads of the
    clock, file writes that succeeded or failed, and commands. *)
Inductive Mark :=
| MFlagged (text : string)
| MClock (d : datetime)
| MWrite (filename data : string)
| MWriteFailed (filename data : string)
| MRun (argv : list string).

Definition mark (ev : Event) : list Mark :=
  match ev with
  | EvModerate text o => if verdict o then [MFlagged text] else []
  | EvNow d => [MClock d]
  | EvWrite filename data => [MWrite filename data]
  | EvWriteFailed filename data _ _ => [MWriteFailed filename data]
  | EvRun argv _ => [MRun argv]
  | _ => []
  end.

Definition marks (tr : list Event) : list Mark := flat_map mark tr.

(** One escalation: the flagged text, the time read from the clock, how
    the write of the artifact went, and how many of the three publish
    steps were started after it. *)
Record Escalation := {
  esc_text : string;
  esc_time : datetime;
  esc_write : WriteAnswer;
  esc_steps : nat
}.

Definition escalation_marks (e : Escalation) : list Mark :=
  let timestamp := strftime (esc_time e) in
  let filename := artifact_name timestamp in
  let data := artifact_body timestamp (esc_text e) in
  [MFlagged (esc_text e); MClock (esc_time e)] ++
  match esc_write e with
  | Written =>
      MWrite filename data :: (MRun <$> take (esc_steps e) (publish_steps filename))
  | WriteFails _ _ => [MWriteFailed filename data]
  end.

Definition escalation_file (fs : gmap string string) (e : Escalation)
    : gmap string string :=
  let timestamp := strftime (esc_time e) in
  after_write (artifact_name timestamp) (artifact_body timestamp (esc_text e))
    (esc_write e) fs.


(** ** Further readings of a trace *)

Definition is_failed_write (ev : Event) : bool :=
  match ev with EvWriteFailed _ _ _ _ => true | _ => false end.

(** When [ev] is a read of the console, no write has failed among the
    events [pre] before it. *)
Definition read_after_good_writes (pre : list Event) (ev : Event) : Prop :=
  is_input ev = true -> Forall (fun e => is_failed_write e = false) pre.

(** The file an event opened for writing, if it opened one. *)
Definition written_name (ev : Event) : option string :=
  match ev with
  | EvWrite filename _ | EvWriteFailed filename _ _ _ => Some filename
  | _ => None
  end.

(** A request to one of the two services. *)
Definition is_service_call (ev : Event) : bool :=
  match ev with EvModerate _ _ | EvComplete _ _ => true | _ => false end.

Definition is_run (ev : Event) : bool :=
  match ev with EvRun _ _ => true | _ => false end.

(** The line an event read from the console, if it read one. *)
Definition line_of (ev : Event) : option string :=
  match ev with EvInput _ (Some line) => Some line | _ => None end.

(** The lines the console delivered, in the order they were read. *)
Definition lines_read (tr : list Event) : list string := omap line_of tr.

(** The history after some completed exchanges: the system message, then
    for each exchange the user line and what stands for the reply. *)
Definition exchanges (pairs : list (string * string)) : list Message :=
  system_message ::
  flat_map (fun p => [user_message p.1; assistant_message p.2]) pairs.

(** ** More worlds for examples *)

Module Corner.

(** The API key is not in the environment. *)
Definition world_without_key : Env :=
  {| getenv_OPENAI_API_KEY := None;
     moderations_create := Scenario.moderation;
     chat_completions_create := Scenario.chat;
     datetime_now := fun _ => Scenario.noon;
     file_write := Scenario.writes_ok;
     subprocess_run := Scenario.git_ok |}.

(** The completion service answers without any choice. *)
Definition chat_no_choice (_ : nat) (_ : list Message) : Outcome ChatCompletion :=
  Returns {| choices := [] |}.

(** The completion service answers with a message that has no content. *)
Definition chat_no_content (_ : nat) (_ : list Message) : Outcome ChatCompletion :=
  Returns {| choices := [{| message := {| reply_content := None |} |}] |}.

Definition world_no_choice : Env :=
  {| getenv_OPENAI_API_KEY := Some "sk-test";
     moderations_create := Scenario.moderation;
     chat_completions_create := chat_no_choice;
     datetime_now := fun _ => Scenario.noon;
     file_write := Scenario.writes_ok;
     subprocess_run := Scenario.git_ok |}.

Definition world_no_content : Env :=
  {| getenv_OPENAI_API_KEY := Some "sk-test";
     moderations_create := Scenario.moderation;
     chat_completions_create := chat_no_content;
     datetime_now := fun _ => Scenario.noon;
     file_write := Scenario.writes_ok;
     subprocess_run := Scenario.git_ok |}.

(** A completion service that answers with white space only. *)
Definition chat_blank (_ : nat) (_ : list Message) : Outcome ChatCompletion :=
  Scenario.reply_answer ("   " +:+ Py.nl).

Definition world_blank_reply : Env :=
  {| getenv_OPENAI_API_KEY := Some "sk-test";
     moderations_create := Scenario.moderation;
     chat_completions_create := chat_blank;
     datetime_now := fun _ => Scenario.noon;
     file_write := Scenario.writes_ok;
     subprocess_run := Scenario.git_ok |}.

Definition one_second_later : datetime :=
  {| year := 2024; month := 3; day := 7; hour := 12; minute := 0; second := 1 |}.

(** A clock that has moved on by one second once the session has logged
    more than its two banner lines. *)
Definition ticking (n : nat) : datetime :=
  if decide (n <= 2)%nat then Scenario.noon else one_second_later.

Definition world_ticking : Env :=
  {| getenv_OPENAI_API_KEY := Some "sk-test";
     moderations_create := Scenario.moderation;
     chat_completions_create := Scenario.chat;
     datetime_now := ticking;
     file_write := Scenario.writes_ok;
     subprocess_run := Scenario.git_ok |}.

(** The working directory is read-only: the artifact cannot be opened. *)
Definition write_denied (_ : nat) (filename _ : string) : WriteAnswer :=
  WriteFails {| exc_class := OSError;
                exc_str := "[Errno 13] Permission denied: '" +:+ filename +:+ "'" |}
    None.

Definition world_read_only : Env :=
  {| getenv_OPENAI_API_KEY := Some "sk-test";
     moderations_create := Scenario.moderation;
     chat_completions_create := Scenario.chat;
     datetime_now := fun _ => Scenario.noon;
     file_write := write_denied;
     subprocess_run := Scenario.git_ok |}.

(** A moderation service that clears the text [x] the first time it is
    asked about it in a session, and flags that same text afterwards. *)
Definition second_thoughts (n : nat) (text : string)
    : Outcome ModerationCreateResponse :=
  if bool_decide (text = "x") && bool_decide (3 < n)%nat
  then Scenario.flagged_answer else Scenario.clean_answer.

Definition world_second_thoughts : Env :=
  {| getenv_OPENAI_API_KEY := Some "sk-test";
     moderations_create := second_thoughts;
     chat_completions_create := Scenario.chat;
     datetime_now := fun _ => Scenario.noon;
     file_write := Scenario.writes_ok;
     subprocess_run := Scenario.git_ok |}.

End Corner.



(** The number of events of a trace that satisfy a test. *)
Definition count_if (f : Event -> bool) (tr : list Event) : nat :=
  length (filter (fun ev => f ev = true) tr).


(** A write to an artifact: the file an event opened for writing, if it
    opened one, is named as artifacts are. *)
Definition artifact_write (ev : Event) : Prop :=
  forall name, written_name ev = Some name ->
  exists timestamp,
    name = "flagged_event_" +:+ timestamp +:+ ".txt" /\
    String.length timestamp = 15.

(** A request to the completion service is well formed when it carries
    the system message, then complete exchanges, then one user message. *)
Definition well_formed_request (ev : Event) : Prop :=
  match ev with
  | EvComplete msgs _ =>
      exists pairs line, msgs = exchanges pairs ++ [user_message line]
  | _ => True
  end.

(** * Running the program *)

Lemma logs_logs a b s : logs b (logs a s) = logs (a ++ b) s.
Proof. unfold logs; simpl. by rewrite app_assoc. Qed.

Lemma moderate_text_run env text s :
  moderate_text env text s =
  (Returns (verdict (moderations_create env (length (trace s)) text)),
   logs (gate_events text (moderations_create env (length (trace s)) text)) s).
Proof.
  unfold moderate_text, try_except, bind, call_moderations_create, gate_events, verdict, gate_error.
  destruct (moderations_create env (length (trace s)) text) as [resp|e]; simpl.
  - destruct (results resp) as [|r rs]; simpl.
    + unfold print, ret, log. by rewrite logs_logs.
    + done.
  - unfold print, ret, log. by rewrite logs_logs.
Qed.

Lemma record_flagged_content_run env text s :
  record_flagged_content env text s =
  (recorder_outcome env (length (trace s)) text,
   {| messages := messages s;
      files := recorder_file env (length (trace s)) text (files s);
      trace := trace s ++ recorder_events env (length (trace s)) text |}).
Proof.
  destruct s as [ms fs tr].
  unfold record_flagged_content, recorder_outcome, recorder_events, recorder_file,
    recorder_write, bind, try_except, call_datetime_now, open_write,
    call_subprocess_run, print, log, logs.
  cbn [trace messages files run_steps publish_steps fst snd].
  rewrite !length_app. cbn [length].
  replace (length tr + 1) with (S (length tr)) by lia.
  set (d := datetime_now env (length tr)).
  set (f := artifact_name (strftime d)).
  destruct (file_write env (S (length tr)) f (artifact_body (strftime d) text))
    as [|e0 remains] eqn:E0.
  2:{ cbn. by rewrite <- !app_assoc. }
  cbn [trace messages files]. rewrite !length_app. cbn [length].
  replace (length tr + 1 + 1) with (2 + length tr) by lia.
  replace (2 + length tr + 1) with (S (2 + length tr)) by lia.
  replace (S (2 + length tr) + 1) with (S (S (2 + length tr))) by lia.
  destruct (subprocess_run env (2 + length tr) (git_add f)) as [[]|e1] eqn:E1.
  - destruct (subprocess_run env (S (2 + length tr)) (git_commit f)) as [[]|e2] eqn:E2.
    + destruct (subprocess_run env (S (S (2 + length tr))) git_push) as [[]|e3] eqn:E3.
      * cbn. rewrite <- !app_assoc. done.
      * cbn. destruct (is_CalledProcessError e3); cbn; rewrite <- !app_assoc; done.
    + cbn. destruct (is_CalledProcessError e2); cbn; rewrite <- !app_assoc; done.
  - cbn. destruct (is_CalledProcessError e1); cbn; rewrite <- !app_assoc; done.
Qed.

Lemma verdict_clean_no_error o : verdict o = false -> gate_error o = None.
Proof.
  destruct o as [resp|e]; simpl; [|done].
  destruct (results resp); [done|]. done.
Qed.

Lemma gate_events_clean text o : verdict o = false -> gate_events text o = [EvModerate text o].
Proof. intros H. unfold gate_events. by rewrite verdict_clean_no_error. Qed.

Lemma turn_unfold env line s :
  turn env line s = loop_body env line (log (EvInput "User: " (Some line)) s).
Proof. reflexivity. Qed.

Lemma length_trace_logs evs s : length (trace (logs evs s)) = length (trace s) + length evs.
Proof. unfold logs; cbn. by rewrite length_app. Qed.

Lemma turn_run env line s r s' :
  turn env line s = (r, s') -> Turn env line s r s'.
Proof.
  rewrite turn_unfold. unfold loop_body. intros H.
  destruct (is_exit_command line) eqn:Hexit.
  { unfold bind, print, ret, log in H. rewrite logs_logs in H.
    injection H as <- <-. by apply turn_exit. }
  unfold bind at 1 in H. rewrite moderate_text_run in H.
  unfold log in H. rewrite length_trace_logs in H. cbn [length] in H.
  replace (length (trace s) + 1) with (S (length (trace s))) in H by lia.
  set (o := moderations_create env (S (length (trace s))) line) in *.
  rewrite logs_logs in H. cbn [app] in H.
  destruct (verdict o) eqn:Hv.
  { unfold bind at 1 in H. unfold print at 1, log in H. rewrite logs_logs in H.
    cbn [app] in H. unfold bind, ret in H.
    pose proof (turn_user_blocked env line s o _ Hexit eq_refl Hv eq_refl) as T.
    destruct (record_flagged_content env line _) as [[u|e] s2];
      injection H as <- <-; exact T. }
  rewrite (gate_events_clean _ _ Hv) in H.
  unfold bind at 1, messages_append in H. cbn [messages files trace logs] in H.
  fold (forwarded line o s) in H.
  set (s1 := forwarded line o s) in *.
  unfold try_except, bind at 1, get_messages in H.
  unfold bind at 1, call_chat_completions_create in H.
  set (co := chat_completions_create env (length (trace s1)) (messages s1)) in *.
  destruct (completion_reply co) as [reply|e] eqn:Hreply.
  2:{ pose proof (turn_completion_failed env line s o s1 co e Hexit eq_refl Hv eq_refl eq_refl Hreply) as T.
      unfold completion_reply in Hreply.
      destruct co as [resp|e0]; cbn in H.
      - destruct (choices resp) as [|c cs]; cbn in H.
        + injection Hreply as <-. unfold Exception, bind, print, ret, log in H. cbn in H.
          rewrite logs_logs in H. injection H as <- <-. exact T.
        + destruct (reply_content (message c)); [discriminate|]. injection Hreply as <-.
          unfold bind, index0, ret, strip_content, raise, Exception, print, log in H; cbn in H.
          rewrite logs_logs in H. injection H as <- <-. exact T.
      - injection Hreply as <-. unfold Exception, bind, print, ret, log in H; cbn in H.
        rewrite logs_logs in H. injection H as <- <-. exact T. }
  unfold completion_reply in Hreply.
  destruct co as [resp|e0] eqn:Hco; [|discriminate].
  destruct (choices resp) as [|c cs] eqn:Hch; [discriminate|].
  destruct (reply_content (message c)) as [raw|] eqn:Hraw; [|discriminate].
  injection Hreply as <-.
  unfold bind at 1 in H. cbn [index0] in H. unfold ret at 1 in H.
  unfold bind at 1 in H. rewrite Hraw in H. cbn [strip_content] in H. unfold ret at 1 in H.
  unfold bind at 1 in H. rewrite moderate_text_run in H.
  unfold log in H. rewrite length_trace_logs in H. cbn [length] in H.
  replace (length (trace s1) + 1) with (S (length (trace s1))) in H by lia.
  set (reply := Py.strip raw) in *.
  set (o2 := moderations_create env (S (length (trace s1))) reply) in *.
  assert (Hcr : completion_reply co = Returns reply).
  { subst co. rewrite Hco. unfold completion_reply. by rewrite Hch, Hraw. }
  rewrite <- Hco in H.
  rewrite logs_logs in H. cbn [app] in H.
  destruct (verdict o2) eqn:Hv2.
  - pose proof (turn_reply_blocked env line s o s1 co reply o2 _ Hexit eq_refl Hv eq_refl eq_refl Hcr eq_refl Hv2 eq_refl) as T.
    unfold bind at 1 in H. unfold print at 1, log in H. rewrite logs_logs in H.
    unfold bind, ret, messages_append in H.
    cbn [messages files trace logs app] in H.
    destruct (record_flagged_content env reply _) as [[u|e] s2]; cbn in H, T.
    + injection H as <- <-. exact T.
    + unfold print, log in H. injection H as <- <-. exact T.
  - pose proof (turn_reply_shown env line s o s1 co reply o2 Hexit eq_refl Hv eq_refl eq_refl Hcr eq_refl Hv2) as T.
    rewrite (gate_events_clean _ _ Hv2) in H.
    unfold bind, print, messages_append, ret, log in H. rewrite !logs_logs in H.
    cbn [messages files trace logs app] in H.
    injection H as <- <-. exact T.
Qed.

Lemma forwarded_length line o s : length (trace (forwarded line o s)) = length (trace s) + 2.
Proof. unfold forwarded; cbn. by rewrite length_app. Qed.

Lemma turn_exit_run env line s :
  is_exit_command line = true ->
  turn env line s = (Returns Break, logs [EvInput "User: " (Some line); EvPrint goodbye] s).
Proof.
  intros Hexit. destruct (turn env line s) as [r s'] eqn:H.
  apply turn_run in H. inversion H; subst; congruence.
Qed.

Lemma turn_user_blocked_run env line s :
  is_exit_command line = false ->
  verdict (user_check env line s) = true ->
  turn env line s =
  (match (record_flagged_content env line (user_blocked_state env line s)).1 with
   | Returns _ => Returns Continue
   | Raises e => Raises e
   end,
   (record_flagged_content env line (user_blocked_state env line s)).2).
Proof.
  intros Hexit Hv. destruct (turn env line s) as [r s'] eqn:H.
  apply turn_run in H. unfold user_check, user_blocked_state in *.
  inversion H; subst; try congruence. reflexivity.
Qed.

Lemma turn_completion_failed_run env line s e :
  is_exit_command line = false ->
  verdict (user_check env line s) = false ->
  completion_reply (completion env line s) = Raises e ->
  turn env line s =
  (Returns Break,
   {| messages := messages s ++ [user_message line];
      files := files s;
      trace := trace s ++
        [EvInput "User: " (Some line); EvModerate line (user_check env line s);
         EvComplete (messages s ++ [user_message line]) (completion env line s);
         EvPrint (error_notice e)] |}).
Proof.
  intros Hexit Hv Hc. destruct (turn env line s) as [r s'] eqn:H.
  apply turn_run in H. unfold user_check, completion in *.
  inversion H; subst; try congruence;
    rewrite forwarded_length in *; cbn [forwarded messages] in *; try congruence.
  rewrite Hc in *. simplify_eq. unfold logs, forwarded; cbn.
  by rewrite <- app_assoc.
Qed.

Lemma turn_reply_shown_run env line s reply :
  is_exit_command line = false ->
  verdict (user_check env line s) = false ->
  completion_reply (completion env line s) = Returns reply ->
  verdict (reply_check env reply s) = false ->
  turn env line s =
  (Returns Continue,
   {| messages := messages s ++ [user_message line; assistant_message reply];
      files := files s;
      trace := trace s ++
        [EvInput "User: " (Some line); EvModerate line (user_check env line s);
         EvComplete (messages s ++ [user_message line]) (completion env line s);
         EvModerate reply (reply_check env reply s);
         EvPrint (display reply)] |}).
Proof.
  intros Hexit Hv Hc Hv2. destruct (turn env line s) as [r s'] eqn:H.
  apply turn_run in H. unfold user_check, completion, reply_check in *.
  assert (E3 : length (trace s) + 3 = S (length (trace s) + 2)) by lia.
  rewrite E3 in *. clear E3.
  inversion H; subst; try congruence;
    rewrite forwarded_length in *; cbn [forwarded messages files trace] in *; try congruence.
  rewrite Hc in *. simplify_eq. by rewrite <- !app_assoc.
Qed.

Lemma turn_reply_blocked_run env line s reply :
  is_exit_command line = false ->
  verdict (user_check env line s) = false ->
  completion_reply (completion env line s) = Returns reply ->
  verdict (reply_check env reply s) = true ->
  turn env line s =
  match (record_flagged_content env reply (reply_blocked_state env line reply s)).1 with
  | Returns _ =>
      (Returns Continue,
       (record_flagged_content env reply (reply_blocked_state env line reply s)).2)
  | Raises e =>
      (Returns Break,
       logs [EvPrint (error_notice e)]
         (record_flagged_content env reply (reply_blocked_state env line reply s)).2)
  end.
Proof.
  intros Hexit Hv Hc Hv2. destruct (turn env line s) as [r s'] eqn:H.
  apply turn_run in H. unfold reply_blocked_state, user_check, completion, reply_check in *.
  assert (E3 : length (trace s) + 3 = S (length (trace s) + 2)) by lia.
  rewrite E3 in *. clear E3.
  inversion H; subst; try congruence;
    rewrite forwarded_length in *; cbn [forwarded messages files trace] in *; try congruence.
  rewrite Hc in *. simplify_eq. rewrite <- !app_assoc. cbn [app].
  clear H. destruct (record_flagged_content _ _ _) as [[u|e] s2]; reflexivity.
Qed.

(** * Properties *)

(** ** Four sessions, run *)

Example strip_example :
  Py.strip ("  a b " +:+ Py.nl) = "a b" /\ Py.lower "QuIt" = "quit".
Proof. split; reflexivity. Qed.

Example strftime_example : strftime Scenario.noon = "20240307_120000".
Proof. reflexivity. Qed.

(** A clean line and a clean reply: the history grows by two entries and
    the reply is shown. *)
Example session_hello :
  run_chatbot Scenario.world ["hello"; "quit"] (initial_state ∅) =
  (Returns tt,
   {| messages := [system_message; user_message "hello";
                   assistant_message "hi there"];
      files := ∅;
      trace :=
        [EvPrint banner; EvPrint usage;
         EvInput "User: " (Some "hello");
         EvModerate "hello" Scenario.clean_answer;
         EvComplete [system_message; user_message "hello"]
           (Scenario.reply_answer "  hi there  ");
         EvModerate "hi there" Scenario.clean_answer;
         EvPrint (display "hi there");
         EvInput "User: " (Some "quit");
         EvPrint goodbye] |}).
Proof. vm_compute. reflexivity. Qed.

(** A flagged line: no request to the completion service, an artifact
    holding the line, and the loop reads on. *)
Example session_flagged_line :
  run_chatbot Scenario.world ["bad"; "quit"] (initial_state ∅) =
  (Returns tt,
   {| messages := [system_message];
      files := {[ "flagged_event_20240307_120000.txt" :=
                  artifact_body "20240307_120000" "bad" ]};
      trace :=
        [EvPrint banner; EvPrint usage;
         EvInput "User: " (Some "bad");
         EvModerate "bad" Scenario.flagged_answer;
         EvPrint user_blocked_notice;
         EvNow Scenario.noon;
         EvWrite "flagged_event_20240307_120000.txt"
           (artifact_body "20240307_120000" "bad");
         EvRun (git_add "flagged_event_20240307_120000.txt") (Returns tt);
         EvRun (git_commit "flagged_event_20240307_120000.txt") (Returns tt);
         EvRun git_push (Returns tt);
         EvPrint (pushed_notice "flagged_event_20240307_120000.txt");
         EvInput "User: " (Some "quit");
         EvPrint goodbye] |}).
Proof. vm_compute. reflexivity. Qed.

(** The moderation service is down: the line is treated as flagged. *)
Example session_moderation_down :
  filter (fun ev => is_completion ev = true)
    (trace (run_chatbot Scenario.world_moderation_down ["hello"; "quit"]
              (initial_state ∅)).2) = [] /\
  (run_chatbot Scenario.world_moderation_down ["hello"; "quit"]
     (initial_state ∅)).2.(files) =
  {[ "flagged_event_20240307_120000.txt" :=
     artifact_body "20240307_120000" "hello" ]}.
Proof. split; vm_compute; reflexivity. Qed.

(** The console reaches its end before an exit keyword: [input] raises. *)
Example session_end_of_input :
  (run_chatbot Scenario.world ["hello"] (initial_state ∅)).1 =
  Raises {| exc_class := EOFError; exc_str := "EOF when reading a line" |}.
Proof. reflexivity. Qed.

(** ** The loop *)

Lemma chat_loop_cons env line rest s :
  chat_loop env (line :: rest) s =
  match turn env line s with
  | (Returns Continue, s') => chat_loop env rest s'
  | (Returns Break, s') => (Returns tt, s')
  | (Raises e, s') => (Raises e, s')
  end.
Proof.
  cbn [chat_loop]. unfold bind at 1.
  destruct (turn env line s) as [[[]|e] s']; reflexivity.
Qed.

Lemma is_exit_command_spec line :
  is_exit_command line = true <-> Py.lower line = "exit" \/ Py.lower line = "quit".
Proof.
  unfold is_exit_command. rewrite bool_decide_eq_true.
  rewrite !elem_of_cons, elem_of_nil. tauto.
Qed.

Lemma record_trace env text s :
  trace (record_flagged_content env text s).2 =
  trace s ++ recorder_events env (length (trace s)) text.
Proof. by rewrite record_flagged_content_run. Qed.

Lemma record_messages env text s :
  messages (record_flagged_content env text s).2 = messages s.
Proof. by rewrite record_flagged_content_run. Qed.

Lemma record_files env text s :
  files (record_flagged_content env text s).2 =
  recorder_file env (length (trace s)) text (files s).
Proof. by rewrite record_flagged_content_run. Qed.

Lemma record_outcome env text s :
  (record_flagged_content env text s).1 = recorder_outcome env (length (trace s)) text.
Proof. by rewrite record_flagged_content_run. Qed.

(** Case analysis on the course of one pass that does not exit. *)
Ltac turn_cases env line s :=
  let Hv := fresh "Hv" in
  let Hc := fresh "Hc" in
  let Hv2 := fresh "Hv2" in
  let reply := fresh "reply" in
  let e := fresh "e" in
  destruct (verdict (user_check env line s)) eqn:Hv;
  [ rewrite (turn_user_blocked_run env line s) by assumption
  | destruct (completion_reply (completion env line s)) as [reply|e] eqn:Hc;
    [ destruct (verdict (reply_check env reply s)) eqn:Hv2;
      [ rewrite (turn_reply_blocked_run env line s reply) by assumption;
        destruct (record_flagged_content env reply
                    (reply_blocked_state env line reply s)).1 eqn:?
      | rewrite (turn_reply_shown_run env line s reply) by assumption ]
    | rewrite (turn_completion_failed_run env line s e) by assumption ] ].

(** ** The moderation gate *)

(** C2: the gate answers flagged whenever the call to the moderation
    service raises or its response holds no result, and otherwise hands
    on the flagged bit of the first result as it is; it never raises. *)
Theorem moderate_text_fail_safe (env : Env) (text : string) (s : State) :
  (moderate_text env text s).1 =
  Returns
    match moderations_create env (length (trace s)) text with
    | Raises _ => true
    | Returns response =>
        match results response with
        | [] => true
        | first :: _ => flagged first
        end
    end.
Proof.
  rewrite moderate_text_run. cbn [fst]. unfold verdict.
  destruct (moderations_create env (length (trace s)) text) as [response|e]; [|done].
  by destruct (results response).
Qed.

Example moderate_text_service_down :
  (moderate_text Scenario.world_moderation_down "hello" Scenario.ready).1 = Returns true.
Proof. reflexivity. Qed.

(** ** Leaving the session *)

(** C8: a line whose lower-case form is [exit] or [quit] ends the loop at
    once: the only events are the read and the print of the farewell
    [Assistant: Goodbye!], so no moderation call is made, the history is
    untouched, and no later line is read.  Any other line is sent to the
    moderation service next. *)
Theorem exit_command_ends_session (env : Env) (line : string)
    (rest : list string) (s : State) :
  (is_exit_command line = true <->
   Py.lower line = "exit" \/ Py.lower line = "quit") /\
  (is_exit_command line = true ->
   chat_loop env (line :: rest) s =
   (Returns tt,
    {| messages := messages s;
       files := files s;
       trace := trace s ++ [EvInput "User: " (Some line);
                            EvPrint "Assistant: Goodbye!"] |})) /\
  (is_exit_command line = false ->
   exists evs,
     trace (turn env line s).2 =
     trace s ++ EvInput "User: " (Some line) ::
                EvModerate line (user_check env line s) :: evs).
Proof.
  split; [apply is_exit_command_spec|]. split.
  - intros Hexit. rewrite chat_loop_cons, turn_exit_run by done. reflexivity.
  - intros Hexit. turn_cases env line s; cbn [snd trace logs];
      rewrite ?record_trace; unfold user_blocked_state, reply_blocked_state;
      cbn [trace logs gate_events app]; rewrite <- ?app_assoc; cbn [app]; eauto.
Qed.

Lemma exit_command_ends_session_witness :
  chat_loop Scenario.world ["QUIT"; "hello"] Scenario.ready =
  (Returns tt,
   {| messages := messages Scenario.ready;
      files := files Scenario.ready;
      trace := trace Scenario.ready ++
               [EvInput "User: " (Some "QUIT");
                EvPrint "Assistant: Goodbye!"] |}) /\
  exists evs,
    trace (turn Scenario.world "hello" Scenario.ready).2 =
    trace Scenario.ready ++
      EvInput "User: " (Some "hello") ::
      EvModerate "hello" (user_check Scenario.world "hello" Scenario.ready) :: evs.
Proof.
  split.
  - apply (exit_command_ends_session Scenario.world "QUIT" ["hello"] Scenario.ready).
    reflexivity.
  - apply (exit_command_ends_session Scenario.world "hello" [] Scenario.ready).
    reflexivity.
Defined.

(** C7: when the completion call raises, the error is printed and the
    loop ends there: that print is the last event and the lines still
    waiting on the console are never read. *)
Theorem completion_failure_ends_session (env : Env) (line : string)
    (rest : list string) (s : State) (e : PyExc) :
  is_exit_command line = false ->
  verdict (user_check env line s) = false ->
  completion env line s = Raises e ->
  chat_loop env (line :: rest) s =
  (Returns tt,
   {| messages := messages s ++ [user_message line];
      files := files s;
      trace := trace s ++
        [EvInput "User: " (Some line);
         EvModerate line (user_check env line s);
         EvComplete (messages s ++ [user_message line]) (Raises e);
         EvPrint (error_notice e)] |}).
Proof.
  intros Hexit Hv Hc. rewrite chat_loop_cons.
  rewrite (turn_completion_failed_run env line s e) by (try done; by rewrite Hc).
  by rewrite Hc.
Qed.

Lemma completion_failure_ends_session_witness :
  chat_loop Scenario.world_chat_down ["hello"; "anyone there?"] Scenario.ready =
  (Returns tt,
   {| messages := [system_message; user_message "hello"];
      files := ∅;
      trace :=
        [EvPrint banner; EvPrint usage;
         EvInput "User: " (Some "hello");
         EvModerate "hello" Scenario.clean_answer;
         EvComplete [system_message; user_message "hello"]
           (Raises {| exc_class := APIError; exc_str := "Connection error." |});
         EvPrint "Error: Connection error."] |}).
Proof.
  apply (completion_failure_ends_session Scenario.world_chat_down "hello"
           ["anyone there?"] Scenario.ready
           {| exc_class := APIError; exc_str := "Connection error." |});
    reflexivity.
Defined.

(** ** The Recorder *)

Lemma run_steps_events env steps : forall n,
  Forall (fun ev => exists argv o, ev = EvRun argv o) (run_steps env n steps).1.
Proof.
  induction steps as [|argv steps IH]; intros n; cbn [run_steps].
  - constructor.
  - destruct (subprocess_run env n argv) as [u|e].
    + specialize (IH (S n)). destruct (run_steps env (S n) steps) as [evs stop].
      cbn [fst] in *. constructor; eauto.
    + cbn [fst]. constructor; eauto.
Qed.

(** The only event of a publish sequence that raises is the one that
    stopped it. *)
Lemma run_steps_raise env steps argv e : forall n,
  EvRun argv (Raises e) ∈ (run_steps env n steps).1 ->
  (run_steps env n steps).2 = Some e.
Proof.
  induction steps as [|a steps IH]; intros n; cbn [run_steps].
  - cbn. by intros ?%elem_of_nil.
  - destruct (subprocess_run env n a) as [u|e'].
    + specialize (IH (S n)). destruct (run_steps env (S n) steps) as [evs stop].
      cbn [fst snd] in *. intros [H|H]%elem_of_cons; [discriminate|auto].
    + cbn [fst snd]. intros [H|H]%elem_of_cons; [congruence|].
      by apply elem_of_nil in H.
Qed.

Lemma recorder_events_escalation env n text :
  Forall is_escalation_event (recorder_events env n text).
Proof.
  unfold recorder_events. constructor; [exact I|].
  destruct (recorder_write env n text) as [|e0 remains];
    [|by repeat constructor].
  constructor; [exact I|]. apply Forall_app; split.
  - eapply Forall_impl; [apply run_steps_events|].
    intros ev (argv & o & ->). exact I.
  - unfold publish_report. destruct (run_steps _ _ _).2 as [e|].
    + destruct (is_CalledProcessError e); [|constructor].
      constructor; [cbn; right; eauto|constructor].
    + constructor; [cbn; left; eauto|constructor].
Qed.

Lemma escalation_event_not_completion ev :
  is_escalation_event ev -> is_completion ev = false.
Proof. by destruct ev. Qed.

Lemma escalation_event_not_display ev reply :
  is_escalation_event ev -> ev <> EvPrint (display reply).
Proof.
  destruct ev; cbn; try done.
  intros [[f ->]|[e ->]]; intros H; injection H as H; discriminate H.
Qed.

Lemma gate_events_not_completion text o :
  Forall (fun ev => is_completion ev = false) (gate_events text o).
Proof. unfold gate_events. destruct (gate_error o); repeat constructor. Qed.

(** C4: when the gate flags the line that was read, the pass prints
    [Assistant: [User content flagged by moderation. Not processed.]]
    and runs the Recorder on the raw line; the history is left as it was
    and the completion service is not called.  The loop goes on to read
    the next line whenever the Recorder returns. *)
Theorem flagged_input_blocked (env : Env) (line : string)
    (rest : list string) (s : State) :
  is_exit_command line = false ->
  verdict (user_check env line s) = true ->
  (turn env line s).2 =
    (record_flagged_content env line (user_blocked_state env line s)).2 /\
  messages (turn env line s).2 = messages s /\
  (exists evs,
     trace (turn env line s).2 = trace s ++ evs /\
     EvPrint "Assistant: [User content flagged by moderation. Not processed.]"
       ∈ evs /\
     Forall (fun ev => is_completion ev = false) evs) /\
  (forall u,
     (record_flagged_content env line (user_blocked_state env line s)).1 = Returns u ->
     chat_loop env (line :: rest) s = chat_loop env rest (turn env line s).2).
Proof.
  intros Hexit Hv. rewrite (turn_user_blocked_run env line s) by done.
  cbn [snd]. split; [done|]. split; [by rewrite record_messages|]. split.
  - rewrite record_trace. unfold user_blocked_state. cbn [trace logs].
    rewrite <- app_assoc. eexists. split; [done|]. split.
    + apply elem_of_app. left. apply elem_of_cons. right.
      apply elem_of_app. right. by apply list_elem_of_singleton.
    + apply Forall_app; split.
      * constructor; [done|]. apply Forall_app; split.
        -- apply gate_events_not_completion.
        -- by repeat constructor.
      * eapply Forall_impl; [apply recorder_events_escalation|].
        apply escalation_event_not_completion.
  - intros u Hu. rewrite chat_loop_cons.
    rewrite (turn_user_blocked_run env line s) by done. by rewrite Hu.
Qed.

Lemma flagged_input_blocked_witness :
  (turn Scenario.world "bad" Scenario.ready).2 =
    (record_flagged_content Scenario.world "bad"
       (user_blocked_state Scenario.world "bad" Scenario.ready)).2 /\
  messages (turn Scenario.world "bad" Scenario.ready).2 = messages Scenario.ready /\
  (exists evs,
     trace (turn Scenario.world "bad" Scenario.ready).2 =
       trace Scenario.ready ++ evs /\
     EvPrint "Assistant: [User content flagged by moderation. Not processed.]"
       ∈ evs /\
     Forall (fun ev => is_completion ev = false) evs) /\
  (forall u,
     (record_flagged_content Scenario.world "bad"
        (user_blocked_state Scenario.world "bad" Scenario.ready)).1 = Returns u ->
     chat_loop Scenario.world ["bad"; "hello"] Scenario.ready =
     chat_loop Scenario.world ["hello"] (turn Scenario.world "bad" Scenario.ready).2).
Proof.
  apply (flagged_input_blocked Scenario.world "bad" ["hello"] Scenario.ready);
    reflexivity.
Defined.

(** C4 needs that proviso: where git cannot be started the Recorder
    raises, the pass on a flagged line raises with it, and the loop never
    reads the line that follows.  The same happens when the artifact
    file cannot be written. *)
Lemma flagged_input_recorder_raises :
  is_exit_command "bad" = false /\
  verdict (user_check Scenario.world_without_git "bad" Scenario.ready) = true /\
  (turn Scenario.world_without_git "bad" Scenario.ready).1 =
    Raises {| exc_class := OSError;
              exc_str := "[Errno 2] No such file or directory: 'git'" |} /\
  filter (fun ev => is_input ev = true)
    (trace (chat_loop Scenario.world_without_git ["bad"; "hello"] Scenario.ready).2) =
    [EvInput "User: " (Some "bad")] /\
  chat_loop Scenario.world_without_git ["bad"; "hello"] Scenario.ready <>
  chat_loop Scenario.world_without_git ["hello"]
    (turn Scenario.world_without_git "bad" Scenario.ready).2.
Proof.
  split; [reflexivity|]. split; [reflexivity|]. split; [reflexivity|].
  split; [vm_compute; reflexivity|].
  intros H. apply (f_equal fst) in H. vm_compute in H. discriminate H.
Qed.

(** The publish sequence when step [k] is the first to raise. *)
Lemma run_steps_first_failure env n steps k argv e :
  steps !! k = Some argv ->
  (forall i argv', i < k -> steps !! i = Some argv' ->
                   subprocess_run env (n + i) argv' = Returns tt) ->
  subprocess_run env (n + k) argv = Raises e ->
  run_steps env n steps =
  (((fun a => EvRun a (Returns tt)) <$> take k steps) ++ [EvRun argv (Raises e)],
   Some e).
Proof.
  revert n k. induction steps as [|a steps IH]; intros n k Hk Hbefore Hfail.
  - by rewrite lookup_nil in Hk.
  - destruct k as [|k]; cbn [run_steps].
    + injection Hk as ->. rewrite Nat.add_0_r in Hfail. by rewrite Hfail.
    + rewrite <- (Nat.add_0_r n) at 1.
      rewrite (Hbefore 0 a) by (done || lia).
      rewrite (IH (S n) k); [done|done| |].
      * intros i argv' Hi Hl. replace (S n + i) with (n + S i) by lia.
        apply Hbefore; [lia|done].
      * by replace (S n + k) with (n + S k) by lia.
Qed.

(** C6: when, the artifact written, a publish step exits with a non-zero
    status ([CalledProcessError]) after the steps before it succeeded,
    the steps after it are not run, the error is printed, and the
    Recorder returns to its caller; the pass in which that happened goes
    on to the next read of the console. *)
Theorem publish_failure_reported (env : Env) :
  (forall (text : string) (s : State) (k : nat) (argv : list string) (e : PyExc),
     let n := length (trace s) in
     let timestamp := strftime (datetime_now env n) in
     let filename := artifact_name timestamp in
     file_write env (1 + n) filename (artifact_body timestamp text) = Written ->
     publish_steps filename !! k = Some argv ->
     (forall i argv', i < k -> publish_steps filename !! i = Some argv' ->
                      subprocess_run env (2 + n + i) argv' = Returns tt) ->
     subprocess_run env (2 + n + k) argv = Raises e ->
     exc_class e = CalledProcessError ->
     record_flagged_content env text s =
     (Returns tt,
      {| messages := messages s;
         files := <[filename := artifact_body timestamp text]> (files s);
         trace := trace s ++
           [EvNow (datetime_now env n);
            EvWrite filename (artifact_body timestamp text)] ++
           ((fun a => EvRun a (Returns tt)) <$> take k (publish_steps filename)) ++
           [EvRun argv (Raises e); EvPrint (push_error_notice e)] |})) /\
  (forall (line : string) (rest : list string) (s : State)
          (evs : list Event) (argv : list string) (e : PyExc),
     trace (turn env line s).2 = trace s ++ evs ->
     EvRun argv (Raises e) ∈ evs ->
     exc_class e = CalledProcessError ->
     chat_loop env (line :: rest) s = chat_loop env rest (turn env line s).2).
Proof.
  split.
  - intros text s k argv e n timestamp filename Hw Hk Hbefore Hfail Hclass.
    rewrite record_flagged_content_run.
    unfold recorder_outcome, recorder_events, recorder_file, recorder_write.
    fold n. fold timestamp. fold filename.
    change (S n) with (1 + n). rewrite Hw. cbn [after_write].
    rewrite (run_steps_first_failure env (2 + n) (publish_steps filename) k argv e)
      by done.
    cbn [fst snd publish_outcome publish_report].
    unfold is_CalledProcessError. rewrite bool_decide_eq_true_2 by done.
    cbn [app]. by rewrite <- app_assoc.
  - intros line rest s evs argv e Htrace Hin Hclass.
    assert (Hcpe : is_CalledProcessError e = true).
    { unfold is_CalledProcessError. by rewrite bool_decide_eq_true_2. }
    assert (Hrec : forall n text,
              EvRun argv (Raises e) ∈ recorder_events env n text ->
              recorder_outcome env n text = Returns tt).
    { intros n text. unfold recorder_events, recorder_outcome.
      intros [H|H]%elem_of_cons; [discriminate|].
      destruct (recorder_write env n text) as [|e0 remains].
      2:{ apply list_elem_of_singleton in H. discriminate. }
      apply elem_of_cons in H as [H|H]; [discriminate|].
      apply elem_of_app in H as [H|H].
      - apply run_steps_raise in H. rewrite H. cbn. by rewrite Hcpe.
      - exfalso. unfold publish_report in H.
        destruct (run_steps _ _ _).2 as [e'|];
          [destruct (is_CalledProcessError e')|];
          repeat (apply elem_of_cons in H as [H|H]; [discriminate|]);
          by apply elem_of_nil in H. }
    assert (Hgate : forall text o, EvRun argv (Raises e) ∈ gate_events text o -> False).
    { intros text o. unfold gate_events. destruct (gate_error o);
        intros H; repeat (apply elem_of_cons in H as [H|H]; [discriminate|]);
        by apply elem_of_nil in H. }
    rewrite chat_loop_cons.
    destruct (is_exit_command line) eqn:Hexit.
    { exfalso. rewrite turn_exit_run in Htrace by done. cbn in Htrace.
      apply app_inv_head in Htrace. subst evs.
      repeat (apply elem_of_cons in Hin as [Hin|Hin]; [discriminate|]).
      by apply elem_of_nil in Hin. }
    revert Htrace. turn_cases env line s; cbn [snd]; intros Htrace.
    + rewrite record_outcome. rewrite record_trace in Htrace.
      unfold user_blocked_state in *. cbn [trace logs] in *.
      rewrite <- app_assoc in Htrace. apply app_inv_head in Htrace. subst evs.
      apply elem_of_app in Hin as [Hin|Hin].
      * exfalso. apply elem_of_cons in Hin as [Hin|Hin]; [discriminate|].
        apply elem_of_app in Hin as [Hin|Hin]; [by eapply Hgate|].
        apply elem_of_cons in Hin as [Hin|Hin]; [discriminate|].
        by apply elem_of_nil in Hin.
      * by rewrite (Hrec _ _ Hin).
    + done.
    + exfalso. rewrite record_outcome in *.
      cbn [trace logs] in Htrace. rewrite record_trace in Htrace.
      unfold reply_blocked_state in *. cbn [trace] in *.
      rewrite <- !app_assoc in Htrace. apply app_inv_head in Htrace. subst evs.
      do 3 (apply elem_of_cons in Hin as [Hin|Hin]; [discriminate|]).
      apply elem_of_app in Hin as [Hin|Hin]; [by eapply Hgate|].
      apply elem_of_cons in Hin as [Hin|Hin]; [discriminate|].
      apply elem_of_app in Hin as [Hin|Hin].
      * rewrite (Hrec _ _ Hin) in *. discriminate.
      * apply elem_of_cons in Hin as [Hin|Hin]; [discriminate|].
        by apply elem_of_nil in Hin.
    + exfalso. cbn [trace] in Htrace. apply app_inv_head in Htrace. subst evs.
      repeat (apply elem_of_cons in Hin as [Hin|Hin]; [discriminate|]).
      by apply elem_of_nil in Hin.
    + exfalso. cbn [trace] in Htrace. apply app_inv_head in Htrace. subst evs.
      repeat (apply elem_of_cons in Hin as [Hin|Hin]; [discriminate|]).
      by apply elem_of_nil in Hin.
Qed.

Lemma publish_failure_reported_witness :
  record_flagged_content Scenario.world_push_rejected "bad" Scenario.ready =
  (Returns tt,
   {| messages := [system_message];
      files := <["flagged_event_20240307_120000.txt" :=
                 artifact_body "20240307_120000" "bad"]> ∅;
      trace := trace Scenario.ready ++
        [EvNow Scenario.noon;
         EvWrite "flagged_event_20240307_120000.txt"
           (artifact_body "20240307_120000" "bad")] ++
        [EvRun (git_add "flagged_event_20240307_120000.txt") (Returns tt);
         EvRun (git_commit "flagged_event_20240307_120000.txt") (Returns tt)] ++
        [EvRun git_push
           (Raises {| exc_class := CalledProcessError;
                      exc_str := "Command '['git', 'push', 'origin', 'main']' returned non-zero exit status 1." |});
         EvPrint "Error pushing flagged content file: Command '['git', 'push', 'origin', 'main']' returned non-zero exit status 1."] |}) /\
  chat_loop Scenario.world_push_rejected ["bad"; "hello"] Scenario.ready =
  chat_loop Scenario.world_push_rejected ["hello"]
    (turn Scenario.world_push_rejected "bad" Scenario.ready).2.
Proof.
  split.
  - apply (proj1 (publish_failure_reported Scenario.world_push_rejected)
             "bad" Scenario.ready 2 git_push
             {| exc_class := CalledProcessError;
                exc_str := "Command '['git', 'push', 'origin', 'main']' returned non-zero exit status 1." |}).
    + reflexivity.
    + reflexivity.
    + intros [|[|i]] argv' Hi Hl; [| |lia]; injection Hl as <-; reflexivity.
    + reflexivity.
    + reflexivity.
  - apply (proj2 (publish_failure_reported Scenario.world_push_rejected)
             "bad" ["hello"] Scenario.ready
             [EvInput "User: " (Some "bad");
              EvModerate "bad" Scenario.flagged_answer;
              EvPrint user_blocked_notice;
              EvNow Scenario.noon;
              EvWrite "flagged_event_20240307_120000.txt"
                (artifact_body "20240307_120000" "bad");
              EvRun (git_add "flagged_event_20240307_120000.txt") (Returns tt);
              EvRun (git_commit "flagged_event_20240307_120000.txt") (Returns tt);
              EvRun git_push
                (Raises {| exc_class := CalledProcessError;
                           exc_str := "Command '['git', 'push', 'origin', 'main']' returned non-zero exit status 1." |});
              EvPrint "Error pushing flagged content file: Command '['git', 'push', 'origin', 'main']' returned non-zero exit status 1."]
             git_push
             {| exc_class := CalledProcessError;
                exc_str := "Command '['git', 'push', 'origin', 'main']' returned non-zero exit status 1." |}).
    + vm_compute. reflexivity.
    + do 7 apply list_elem_of_further. apply list_elem_of_here.
    + reflexivity.
Defined.

(** C6 holds for that class of failure only: where git cannot be started,
    the failure of the stage step is not printed but raised to the caller
    of the Recorder, and the session ends with that exception without
    reading the next line. *)
Lemma publish_failure_can_escape :
  record_flagged_content Scenario.world_without_git "bad" Scenario.ready =
  (Raises {| exc_class := OSError;
             exc_str := "[Errno 2] No such file or directory: 'git'" |},
   {| messages := [system_message];
      files := <["flagged_event_20240307_120000.txt" :=
                 artifact_body "20240307_120000" "bad"]> ∅;
      trace := trace Scenario.ready ++
        [EvNow Scenario.noon;
         EvWrite "flagged_event_20240307_120000.txt"
           (artifact_body "20240307_120000" "bad");
         EvRun (git_add "flagged_event_20240307_120000.txt")
           (Raises {| exc_class := OSError;
                      exc_str := "[Errno 2] No such file or directory: 'git'" |})] |}) /\
  (run_chatbot Scenario.world_without_git ["bad"; "hello"] (initial_state ∅)).1 =
  Raises {| exc_class := OSError;
            exc_str := "[Errno 2] No such file or directory: 'git'" |}.
Proof. split; vm_compute; reflexivity. Qed.

(** ** The artifact *)

Lemma digit_is_digit n : is_digit (digit n) = true.
Proof.
  unfold digit, is_digit.
  assert (H : (n mod 10 < 10)%N) by (apply N.mod_lt; lia).
  set (k := (n mod 10)%N) in *. clearbody k.
  rewrite N_ascii_embedding by lia. cbv zeta.
  apply andb_true_intro; split; apply N.leb_le; lia.
Qed.

Lemma digit_value_digit n : digit_value (digit n) = (n mod 10)%N.
Proof.
  unfold digit, digit_value.
  assert (H : (n mod 10 < 10)%N) by (apply N.mod_lt; lia).
  set (k := (n mod 10)%N) in *. clearbody k.
  rewrite N_ascii_embedding by lia. lia.
Qed.

Lemma digit_not_newline n : bool_decide (digit n = "010"%char) = false.
Proof.
  apply bool_decide_eq_false. intros H.
  pose proof (digit_is_digit n) as D. rewrite H in D. discriminate D.
Qed.

Lemma digits_step (a : N) : (10 * (a / 10) + a mod 10 = a)%N.
Proof. symmetry. apply N.div_mod. lia. Qed.

Lemma number_pad2 n : (n < 100)%N -> number [digit (n / 10); digit n] = n.
Proof.
  intros H. unfold number. cbn [foldl]. rewrite !digit_value_digit.
  rewrite (N.mod_small (n / 10)) by (apply N.Div0.div_lt_upper_bound; lia).
  pose proof (digits_step n). lia.
Qed.

Lemma number_pad4 y :
  (y <= 9999)%N ->
  number [digit (y / 1000); digit (y / 100); digit (y / 10); digit y] = y.
Proof.
  intros H. unfold number. cbn [foldl]. rewrite !digit_value_digit.
  assert (E1 : (y / 1000 = y / 100 / 10)%N) by (rewrite N.Div0.div_div; reflexivity).
  assert (E2 : (y / 100 = y / 10 / 10)%N) by (rewrite N.Div0.div_div; reflexivity).
  rewrite (N.mod_small (y / 1000)) by (apply N.Div0.div_lt_upper_bound; lia).
  rewrite E1.
  pose proof (digits_step (y / 100)). pose proof (digits_step (y / 10)).
  pose proof (digits_step y). rewrite E2 in *. lia.
Qed.

Lemma read_timestamp_strftime d :
  valid_datetime d -> read_timestamp (strftime d) = Some d.
Proof.
  intros (Hy & Hm & Hd & Hh & Hn & Hs). destruct d as [y m dd h n sc]. cbn in *.
  cbv [strftime pad4 pad2 String.append read_timestamp Py.chars
       year month day hour minute second forallb].
  rewrite !digit_is_digit. cbn [andb].
  rewrite bool_decide_eq_true_2 by done.
  rewrite number_pad4, !number_pad2 by lia. reflexivity.
Qed.

Lemma strftime_length d : String.length (strftime d) = 15.
Proof. reflexivity. Qed.

Lemma count_newlines_app a b :
  count_newlines (a +:+ b) = count_newlines a + count_newlines b.
Proof.
  induction a as [|c a IH]; [done|].
  change (String c a +:+ b) with (String c (a +:+ b)).
  cbn [count_newlines]. rewrite IH. lia.
Qed.

Lemma strftime_no_newline d : count_newlines (strftime d) = 0.
Proof.
  cbv [strftime pad4 pad2 String.append count_newlines].
  rewrite !digit_not_newline. reflexivity.
Qed.

Lemma string_app_assoc (a b c : string) : (a +:+ b) +:+ c = a +:+ b +:+ c.
Proof.
  induction a as [|x a IH]; [done|].
  change ((String x a +:+ b) +:+ c) with (String x ((a +:+ b) +:+ c)).
  by rewrite IH.
Qed.

Lemma recorder_events_one_write env n text :
  recorder_write env n text = Written ->
  exists evs,
    recorder_events env n text =
    EvNow (datetime_now env n) ::
    EvWrite (artifact_name (strftime (datetime_now env n)))
      (artifact_body (strftime (datetime_now env n)) text) :: evs /\
    Forall (fun ev => is_write ev = false) evs.
Proof.
  intros Hw. unfold recorder_events. rewrite Hw. eexists. split; [reflexivity|].
  apply Forall_app; split.
  - eapply Forall_impl; [apply run_steps_events|]. by intros ev (argv & o & ->).
  - unfold publish_report. destruct (run_steps _ _ _).2 as [e|];
      [destruct (is_CalledProcessError e)|]; by repeat constructor.
Qed.

(** C9: the artifact the Recorder produces, when its write goes through,
    is one file, named [flagged_event_] followed by the time of the event
    as [YYYYMMDD_HHMMSS] and [.txt]; the file holds two header lines, the
    first of which carries the same timestamp, and then the offending
    text as it is, closed by a line end. *)
Theorem artifact_format (env : Env) (text : string) (s : State) :
  let d := datetime_now env (length (trace s)) in
  let timestamp := strftime d in
  let filename := artifact_name timestamp in
  let s' := (record_flagged_content env text s).2 in
  valid_datetime d ->
  file_write env (1 + length (trace s)) filename (artifact_body timestamp text)
    = Written ->
  files s' !! filename = Some (artifact_body timestamp text) /\
  (exists evs,
     trace s' = trace s ++
       EvNow d :: EvWrite filename (artifact_body timestamp text) :: evs /\
     Forall (fun ev => is_write ev = false) evs) /\
  filename = "flagged_event_" +:+ timestamp +:+ ".txt" /\
  String.length timestamp = 15 /\
  read_timestamp timestamp = Some d /\
  artifact_body timestamp text =
    "Flagged content detected at " +:+ timestamp +:+ Py.nl +:+
    "Offending text:" +:+ Py.nl +:+ text +:+ Py.nl /\
  count_newlines (artifact_header timestamp) = 2.
Proof.
  intros d timestamp filename s' Hvalid Hw. subst s'.
  assert (Hw' : recorder_write env (length (trace s)) text = Written) by exact Hw.
  split; [|split; [|split; [|split; [|split; [|split]]]]].
  - rewrite record_files. unfold recorder_file. rewrite Hw'.
    apply lookup_insert_eq.
  - rewrite record_trace.
    destruct (recorder_events_one_write env (length (trace s)) text Hw')
      as (evs & -> & Hevs).
    by exists evs.
  - reflexivity.
  - apply strftime_length.
  - by apply read_timestamp_strftime.
  - unfold artifact_body, artifact_header. by rewrite !string_app_assoc.
  - unfold artifact_header. rewrite !count_newlines_app.
    fold timestamp. unfold timestamp. rewrite strftime_no_newline. reflexivity.
Qed.

Lemma artifact_format_witness :
  files (record_flagged_content Scenario.world "bad" Scenario.ready).2
    !! "flagged_event_20240307_120000.txt" =
    Some (artifact_body "20240307_120000" "bad") /\
  (exists evs,
     trace (record_flagged_content Scenario.world "bad" Scenario.ready).2 =
     trace Scenario.ready ++
       EvNow Scenario.noon ::
       EvWrite "flagged_event_20240307_120000.txt"
         (artifact_body "20240307_120000" "bad") :: evs /\
     Forall (fun ev => is_write ev = false) evs) /\
  "flagged_event_20240307_120000.txt" =
    "flagged_event_" +:+ "20240307_120000" +:+ ".txt" /\
  String.length "20240307_120000" = 15 /\
  read_timestamp "20240307_120000" = Some Scenario.noon /\
  artifact_body "20240307_120000" "bad" =
    "Flagged content detected at " +:+ "20240307_120000" +:+ Py.nl +:+
    "Offending text:" +:+ Py.nl +:+ "bad" +:+ Py.nl /\
  count_newlines (artifact_header "20240307_120000") = 2.
Proof.
  apply (artifact_format Scenario.world "bad" Scenario.ready).
  - unfold valid_datetime. vm_compute. repeat split; congruence.
  - reflexivity.
Defined.

(** ** [strip] *)

Lemma lstrip_split s :
  exists l, s = l +:+ Py.lstrip s /\ Py.all_space l = true.
Proof.
  induction s as [|c s (l & IH & Hl)]; [by exists ""|].
  cbn [Py.lstrip]. destruct (Py.isspace c) eqn:Hc.
  - exists (String c l). split.
    + change (String c l +:+ Py.lstrip s) with (String c (l +:+ Py.lstrip s)).
      by rewrite <- IH.
    + cbn. by rewrite Hc, Hl.
  - by exists "".
Qed.

Lemma lstrip_first s :
  match Py.first_char (Py.lstrip s) with
  | Some c => Py.isspace c = false
  | None => True
  end.
Proof.
  induction s as [|c s IH]; [done|].
  cbn [Py.lstrip]. by destruct (Py.isspace c) eqn:Hc.
Qed.

Lemma lstrip_last s :
  Py.lstrip s = "" \/ Py.last_char (Py.lstrip s) = Py.last_char s.
Proof.
  induction s as [|c s IH]; [by left|].
  cbn [Py.lstrip]. destruct (Py.isspace c) eqn:Hc; [|by right].
  destruct IH as [IH|IH]; [by left|].
  destruct s as [|c' s']; [by left|]. right. by rewrite IH.
Qed.

Lemma rstrip_split s :
  exists t, s = Py.rstrip s +:+ t /\ Py.all_space t = true.
Proof.
  induction s as [|c s (t & IH & Ht)]; [by exists ""|].
  cbn [Py.rstrip]. destruct (Py.all_space (String c s)) eqn:Hall.
  - by exists (String c s).
  - exists t. split; [|done].
    change (String c (Py.rstrip s) +:+ t) with (String c (Py.rstrip s +:+ t)).
    by rewrite <- IH.
Qed.

Lemma rstrip_empty s : Py.rstrip s = "" -> Py.all_space s = true.
Proof.
  destruct s as [|c s]; [done|]. cbn [Py.rstrip].
  by destruct (Py.all_space (String c s)).
Qed.

Lemma rstrip_last s :
  match Py.last_char (Py.rstrip s) with
  | Some c => Py.isspace c = false
  | None => True
  end.
Proof.
  induction s as [|c s IH]; [done|].
  cbn [Py.rstrip]. destruct (Py.all_space (String c s)) eqn:Hall; [done|].
  cbn [Py.last_char]. destruct (Py.rstrip s) as [|c' r] eqn:Hr; [|exact IH].
  apply rstrip_empty in Hr. cbn in Hall. rewrite Hr, andb_true_r in Hall. done.
Qed.

Lemma strip_trimmed raw : trimmed (Py.strip raw).
Proof.
  unfold trimmed, Py.strip. split; [apply lstrip_first|].
  destruct (lstrip_last (Py.rstrip raw)) as [-> | ->]; [done | apply rstrip_last].
Qed.

Lemma strip_split raw :
  exists l t, raw = l +:+ Py.strip raw +:+ t /\
              Py.all_space l = true /\ Py.all_space t = true.
Proof.
  destruct (rstrip_split raw) as (t & Hraw & Ht).
  destruct (lstrip_split (Py.rstrip raw)) as (l & Hr & Hl).
  exists l, t. split; [|done]. unfold Py.strip.
  rewrite <- string_app_assoc, <- Hr. exact Hraw.
Qed.

(** C10: the reply of the completion service is stripped of the white
    space at its ends before anything else is done with it.  The
    stripped text is what the gate is asked about; when the verdict is
    clean it is what is printed, between [Assistant: ] and a line end,
    and what is appended to the history as the content of an assistant
    message; when the verdict is flagged it is what the Recorder is
    called with, and what the artifact the Recorder tries to write
    carries. *)
Theorem reply_is_stripped (env : Env) (line : string) (s : State)
    (response : ChatCompletion) (choice : Choice) (others : list Choice)
    (raw : string) :
  let reply := Py.strip raw in
  let history := messages s ++ [{| role := "user"; content := line |}] in
  let asked :=
    [EvInput "User: " (Some line);
     EvModerate line (user_check env line s);
     EvComplete history (Returns response);
     EvModerate reply (reply_check env reply s)] in
  is_exit_command line = false ->
  verdict (user_check env line s) = false ->
  completion env line s = Returns response ->
  choices response = choice :: others ->
  reply_content (message choice) = Some raw ->
  (exists l t, raw = l +:+ reply +:+ t /\
               Py.all_space l = true /\ Py.all_space t = true) /\
  trimmed reply /\
  (verdict (reply_check env reply s) = false ->
   turn env line s =
   (Returns Continue,
    {| messages := history ++ [{| role := "assistant"; content := reply |}];
       files := files s;
       trace := trace s ++ asked ++
                [EvPrint ("Assistant: " +:+ reply +:+ Py.nl)] |})) /\
  (verdict (reply_check env reply s) = true ->
   (turn env line s).2 =
     match (record_flagged_content env reply
              (reply_blocked_state env line reply s)).1 with
     | Returns _ =>
         (record_flagged_content env reply (reply_blocked_state env line reply s)).2
     | Raises e =>
         logs [EvPrint (error_notice e)]
           (record_flagged_content env reply (reply_blocked_state env line reply s)).2
     end /\
   messages (turn env line s).2 =
     history ++ [{| role := "assistant"; content := "[Blocked content]" |}] /\
   exists d,
     let filename := artifact_name (strftime d) in
     let data := artifact_body (strftime d) reply in
     EvWrite filename data ∈ trace (turn env line s).2 \/
     exists e remains,
       EvWriteFailed filename data e remains ∈ trace (turn env line s).2).
Proof.
  intros reply history asked Hexit Hv Hc Hch Hraw.
  assert (Hreply : completion_reply (completion env line s) = Returns reply).
  { rewrite Hc. unfold completion_reply. by rewrite Hch, Hraw. }
  split; [apply strip_split|]. split; [apply strip_trimmed|]. split.
  - intros Hv2. rewrite (turn_reply_shown_run env line s reply) by done.
    subst asked history. rewrite Hc. f_equal. f_equal.
    by rewrite <- app_assoc.
  - intros Hv2. rewrite (turn_reply_blocked_run env line s reply) by done.
    set (s2 := reply_blocked_state env line reply s).
    set (d := datetime_now env (length (trace s2))).
    assert (Hw : EvWrite (artifact_name (strftime d)) (artifact_body (strftime d) reply)
                   ∈ trace (record_flagged_content env reply s2).2 \/
                 exists e remains,
                   EvWriteFailed (artifact_name (strftime d))
                     (artifact_body (strftime d) reply) e remains
                   ∈ trace (record_flagged_content env reply s2).2).
    { rewrite record_trace. unfold recorder_events. fold d.
      destruct (recorder_write env (length (trace s2)) reply) as [|e remains].
      - left. apply elem_of_app. right.
        apply list_elem_of_further, list_elem_of_here.
      - right. exists e, remains. apply elem_of_app. right.
        apply list_elem_of_further, list_elem_of_here. }
    assert (Hm : messages (record_flagged_content env reply s2).2 =
                 history ++ [{| role := "assistant"; content := "[Blocked content]" |}]).
    { rewrite record_messages. subst s2 history. unfold reply_blocked_state.
      cbn [messages]. by rewrite <- app_assoc. }
    destruct (record_flagged_content env reply s2).1; cbn [snd].
    + split; [done|]. split; [done|]. by exists d.
    + split; [done|]. split; [done|]. exists d. cbn [trace logs].
      destruct Hw as [Hw|(e' & remains & Hw)].
      * left. apply elem_of_app. by left.
      * right. exists e', remains. apply elem_of_app. by left.
Qed.

Lemma reply_is_stripped_witness :
  turn Scenario.world "hello" Scenario.ready =
  (Returns Continue,
   {| messages := [system_message; {| role := "user"; content := "hello" |};
                   {| role := "assistant"; content := "hi there" |}];
      files := ∅;
      trace := trace Scenario.ready ++
        [EvInput "User: " (Some "hello");
         EvModerate "hello" Scenario.clean_answer;
         EvComplete [system_message; {| role := "user"; content := "hello" |}]
           (Scenario.reply_answer "  hi there  ");
         EvModerate "hi there" Scenario.clean_answer;
         EvPrint ("Assistant: hi there" +:+ Py.nl)] |}) /\
  messages (turn Scenario.world "provoke" Scenario.ready).2 =
    [system_message; {| role := "user"; content := "provoke" |};
     {| role := "assistant"; content := "[Blocked content]" |}] /\
  exists d,
    EvWrite (artifact_name (strftime d)) (artifact_body (strftime d) "rude reply")
      ∈ trace (turn Scenario.world "provoke" Scenario.ready).2 \/
    exists e remains,
      EvWriteFailed (artifact_name (strftime d))
        (artifact_body (strftime d) "rude reply") e remains
      ∈ trace (turn Scenario.world "provoke" Scenario.ready).2.
Proof.
  split.
  - destruct (reply_is_stripped Scenario.world "hello" Scenario.ready
                {| choices := [{| message := {| reply_content := Some "  hi there  " |} |}] |}
                {| message := {| reply_content := Some "  hi there  " |} |} []
                "  hi there  " eq_refl eq_refl eq_refl eq_refl eq_refl)
      as (_ & _ & Hclean & _).
    exact (Hclean eq_refl).
  - destruct (reply_is_stripped Scenario.world "provoke" Scenario.ready
                {| choices := [{| message := {| reply_content := Some (" rude reply" +:+ Py.nl) |} |}] |}
                {| message := {| reply_content := Some (" rude reply" +:+ Py.nl) |} |} []
                (" rude reply" +:+ Py.nl) eq_refl eq_refl eq_refl eq_refl eq_refl)
      as (_ & _ & _ & Hflagged).
    destruct (Hflagged eq_refl) as (_ & Hm & Hw). split; [exact Hm | exact Hw].
Defined.

(** ** Whole sessions *)

Lemma startup_run env s :
  startup env s =
  match getenv_OPENAI_API_KEY env with
  | None | Some EmptyString =>
      (Raises {| exc_class := ValueError; exc_str := "OPENAI_API_KEY not set." |}, s)
  | Some _ =>
      (Returns tt,
       {| messages := [system_message];
          files := files s;
          trace := trace s ++ [EvPrint banner; EvPrint usage] |})
  end.
Proof.
  unfold startup, initialize_openai_client, bind, raise, ret, print,
    messages_assign, log, logs.
  destruct (getenv_OPENAI_API_KEY env) as [[|c k]|]; cbn; [done| |done].
  by rewrite <- app_assoc.
Qed.

(** A property that holds when the loop starts and is kept by every pass
    and by the end of input holds when the loop is left. *)
Lemma chat_loop_invariant env (I : State -> Prop) :
  (forall s line, I s -> I (turn env line s).2) ->
  (forall s, I s -> I (logs [EvInput "User: " None] s)) ->
  forall stdin s, I s -> I (chat_loop env stdin s).2.
Proof.
  intros Hturn Heof stdin. induction stdin as [|line rest IH]; intros s Hs.
  - cbn. by apply Heof.
  - rewrite chat_loop_cons. specialize (Hturn s line Hs).
    destruct (turn env line s) as [[[]|e] s']; cbn [snd] in *; auto.
Qed.

Lemma run_chatbot_invariant env (I : State -> Prop) fs :
  I (initial_state fs) ->
  (forall s, startup env (initial_state fs) = (Returns tt, s) -> I s) ->
  (forall s line, I s -> I (turn env line s).2) ->
  (forall s, I s -> I (logs [EvInput "User: " None] s)) ->
  forall stdin, I (run_chatbot env stdin (initial_state fs)).2.
Proof.
  intros Hinit Hstart Hturn Heof stdin. unfold run_chatbot, bind.
  destruct (startup env (initial_state fs)) as [[u|e] s] eqn:Hs; cbn [snd].
  - destruct u. apply chat_loop_invariant; auto.
  - rewrite startup_run in Hs.
    destruct (getenv_OPENAI_API_KEY env) as [[|c k]|]; by simplify_eq.
Qed.

(** A property of the states at the prompt that every pass carries on,
    and that gives [J] wherever the loop is left, holds at the end. *)
Lemma chat_loop_prompt_invariant env (I J : State -> Prop) :
  (forall s line, I s ->
     match turn env line s with
     | (Returns Continue, s') => I s'
     | (_, s') => J s'
     end) ->
  (forall s, I s -> J (logs [EvInput "User: " None] s)) ->
  forall stdin s, I s -> J (chat_loop env stdin s).2.
Proof.
  intros Hturn Heof stdin. induction stdin as [|line rest IH]; intros s Hs.
  - cbn. by apply Heof.
  - rewrite chat_loop_cons. specialize (Hturn s line Hs).
    destruct (turn env line s) as [[[]|e] s']; cbn [snd] in *; auto.
Qed.

Lemma run_chatbot_prompt_invariant env (I J : State -> Prop) fs :
  J (initial_state fs) ->
  (forall s, startup env (initial_state fs) = (Returns tt, s) -> I s) ->
  (forall s line, I s ->
     match turn env line s with
     | (Returns Continue, s') => I s'
     | (_, s') => J s'
     end) ->
  (forall s, I s -> J (logs [EvInput "User: " None] s)) ->
  forall stdin, J (run_chatbot env stdin (initial_state fs)).2.
Proof.
  intros Hinit Hstart Hturn Heof stdin. unfold run_chatbot, bind.
  destruct (startup env (initial_state fs)) as [[u|e] s] eqn:Hs; cbn [snd].
  - destruct u. apply (chat_loop_prompt_invariant env I J); auto.
  - rewrite startup_run in Hs.
    destruct (getenv_OPENAI_API_KEY env) as [[|c k]|]; by simplify_eq.
Qed.

(** ** The history *)

Lemma clean_checked_mono tr evs text :
  clean_checked tr text -> clean_checked (tr ++ evs) text.
Proof.
  intros (o & Hin & Hv). exists o. split; [|done]. apply elem_of_app. by left.
Qed.

Lemma justified_mono tr evs m : justified tr m -> justified (tr ++ evs) m.
Proof.
  intros [H|[H|[Hr H]]]; [by left|by right; left|].
  right; right. split; [done|]. by apply clean_checked_mono.
Qed.

(** What one pass adds to the history, and that it is accounted for. *)
Lemma turn_history env line s :
  exists evs added,
    trace (turn env line s).2 = trace s ++ evs /\
    messages (turn env line s).2 = messages s ++ added /\
    Forall (justified (trace (turn env line s).2)) added.
Proof.
  assert (Huser : forall tr o rest,
            verdict o = false ->
            justified (tr ++ EvInput "User: " (Some line) :: EvModerate line o :: rest)
              (user_message line)).
  { intros tr o rest Hv. right; right. split; [by left|]. exists o. split; [|done].
    apply elem_of_app. right. apply elem_of_cons. right. apply elem_of_cons. by left. }
  destruct (is_exit_command line) eqn:Hexit.
  { rewrite turn_exit_run by done. cbn. eexists _, [].
    split; [reflexivity|]. split; [by rewrite app_nil_r|constructor]. }
  turn_cases env line s; cbn [snd].
  - rewrite record_trace, record_messages. unfold user_blocked_state.
    cbn [trace messages logs]. rewrite <- app_assoc.
    eexists _, []. split; [reflexivity|]. split; [by rewrite app_nil_r|constructor].
  - rewrite record_trace, record_messages. unfold reply_blocked_state.
    cbn [trace messages logs]. rewrite <- app_assoc. cbn [app].
    eexists _, _. split; [done|]. split; [done|].
    constructor; [by apply Huser|]. constructor; [by right; left|constructor].
  - cbn [trace messages logs]. rewrite record_trace, record_messages.
    unfold reply_blocked_state. cbn [trace messages logs].
    rewrite <- !app_assoc. cbn [app].
    eexists _, _. split; [done|]. split; [done|].
    constructor; [by apply Huser|]. constructor; [by right; left|constructor].
  - cbn [trace messages]. eexists _, _. split; [done|]. split; [done|].
    constructor; [by apply Huser|]. constructor; [|constructor].
    right; right. split; [by right|]. exists (reply_check env reply s).
    split; [|done]. apply elem_of_app. right. cbn [content assistant_message].
    do 3 apply list_elem_of_further. apply list_elem_of_here.
  - cbn [trace messages]. eexists _, _. split; [done|]. split; [done|].
    constructor; [by apply Huser|constructor].
Qed.

Lemma history_justified env fs s :
  reachable env fs s -> Forall (justified (trace s)) (messages s).
Proof.
  assert (Hturn : forall s line,
            Forall (justified (trace s)) (messages s) ->
            Forall (justified (trace (turn env line s).2)) (messages (turn env line s).2)).
  { intros s0 line H. destruct (turn_history env line s0) as (evs & added & Ht & Hm & Ha).
    rewrite Hm. apply Forall_app; split; [|done]. rewrite Ht.
    eapply Forall_impl; [exact H|]. intros m. apply justified_mono. }
  assert (Hprompt : forall s, at_prompt env fs s -> Forall (justified (trace s)) (messages s)).
  { intros s0 H. induction H as [s0 H|s0 line s1 _ IH Ht].
    - rewrite startup_run in H.
      destruct (getenv_OPENAI_API_KEY env) as [[|c k]|]; simplify_eq.
      cbn. constructor; [by left|constructor].
    - specialize (Hturn s0 line IH). by rewrite Ht in Hturn. }
  intros [s0 H|s0 line H|s0 H].
  - by apply Hprompt.
  - apply Hturn. by apply Hprompt.
  - cbn. eapply Forall_impl; [apply Hprompt, H|]. intros m. apply justified_mono.
Qed.

(** ** What is forwarded and what is shown *)

Lemma each_event_app P pre a b :
  each_event P pre (a ++ b) <-> each_event P pre a /\ each_event P (pre ++ a) b.
Proof.
  revert pre. induction a as [|ev a IH]; intros pre; cbn [each_event app].
  - rewrite app_nil_r. tauto.
  - rewrite IH. rewrite <- app_assoc. cbn [app]. tauto.
Qed.

Lemma each_event_split P p0 tr pre ev post :
  each_event P p0 tr -> tr = pre ++ ev :: post -> P (p0 ++ pre) ev.
Proof.
  intros H ->. apply each_event_app in H as [_ H]. by destruct H.
Qed.

Lemma each_event_Forall (P : list Event -> Event -> Prop) (Q : Event -> Prop) pre evs :
  (forall pre' ev, Q ev -> P pre' ev) -> Forall Q evs -> each_event P pre evs.
Proof.
  intros HQ H. revert pre. induction H as [|ev evs Hev _ IH]; intros pre; cbn; auto.
Qed.

Lemma harmless_guarded pre ev : harmless ev -> guarded pre ev.
Proof.
  intros [Hc Hd]. split; [|split].
  - intros msgs o ->. discriminate Hc.
  - intros reply ->. by destruct (Hd reply).
  - done.
Qed.

Lemma string_length_app (a b : string) :
  String.length (a +:+ b) = String.length a + String.length b.
Proof.
  induction a as [|x a IH]; [done|].
  change (String x a +:+ b) with (String x (a +:+ b)).
  cbn [String.length]. by rewrite IH.
Qed.

Lemma string_app_inj_r (a b c : string) : a +:+ c = b +:+ c -> a = b.
Proof.
  revert b. induction a as [|x a IH]; intros [|y b] H; try done.
  - exfalso. apply (f_equal String.length) in H.
    change (String y b +:+ c) with (String y (b +:+ c)) in H.
    cbn [String.length] in H. rewrite !string_length_app in H.
    cbn [String.length] in H. lia.
  - exfalso. apply (f_equal String.length) in H.
    change (String x a +:+ c) with (String x (a +:+ c)) in H.
    cbn [String.length] in H. rewrite !string_length_app in H.
    cbn [String.length] in H. lia.
  - change (String x (a +:+ c) = String y (b +:+ c)) in H.
    injection H as -> H. f_equal. by apply IH.
Qed.

Lemma display_inj a b : display a = display b -> a = b.
Proof.
  unfold display. intros H. apply String.app_inj in H.
  by apply string_app_inj_r in H.
Qed.

Lemma last_char_app_newline (a : string) :
  Py.last_char (a +:+ Py.nl) = Some "010"%char.
Proof.
  induction a as [|x a IH]; [done|].
  change (String x a +:+ Py.nl) with (String x (a +:+ Py.nl)).
  cbn [Py.last_char]. rewrite IH. by destruct (a +:+ Py.nl).
Qed.

Lemma display_last_char reply : Py.last_char (display reply) = Some "010"%char.
Proof.
  unfold display. rewrite <- string_app_assoc. apply last_char_app_newline.
Qed.

(** A text that does not end in a line end is not a displayed reply. *)
Lemma not_display text reply :
  Py.last_char text <> Some "010"%char -> EvPrint text <> EvPrint (display reply).
Proof. intros H E. injection E as ->. by rewrite display_last_char in H. Qed.

Lemma harmless_input p l : harmless (EvInput p l).
Proof. by split. Qed.

Lemma harmless_moderate t o : harmless (EvModerate t o).
Proof. by split. Qed.

Lemma harmless_goodbye : harmless (EvPrint goodbye).
Proof. split; [done|]. intros reply. by apply not_display. Qed.

Lemma harmless_user_blocked_notice : harmless (EvPrint user_blocked_notice).
Proof. split; [done|]. intros reply. by apply not_display. Qed.

Lemma harmless_model_blocked_notice : harmless (EvPrint model_blocked_notice).
Proof. split; [done|]. intros reply. by apply not_display. Qed.

Lemma harmless_error_notice e : harmless (EvPrint (error_notice e)).
Proof. split; [done|]. intros reply H. injection H as H. discriminate H. Qed.

Lemma harmless_banner : harmless (EvPrint banner).
Proof. split; [done|]. intros reply H. injection H as H. discriminate H. Qed.

Lemma harmless_usage : harmless (EvPrint usage).
Proof. split; [done|]. intros reply H. injection H as H. discriminate H. Qed.

Lemma harmless_escalation ev : is_escalation_event ev -> harmless ev.
Proof.
  intros H. split.
  - by apply escalation_event_not_completion.
  - intros reply. by apply escalation_event_not_display.
Qed.

Lemma harmless_gate_events text o : Forall harmless (gate_events text o).
Proof.
  unfold gate_events. constructor; [apply harmless_moderate|].
  destruct (gate_error o) as [e|]; constructor; [|constructor].
  split; [done|]. intros reply H. injection H as H. discriminate H.
Qed.

Lemma harmless_recorder_events env n text :
  Forall harmless (recorder_events env n text).
Proof.
  eapply Forall_impl; [apply recorder_events_escalation|]. apply harmless_escalation.
Qed.

Create HintDb harmless.

#[local] Hint Resolve harmless_guarded harmless_input harmless_moderate
  harmless_goodbye harmless_user_blocked_notice harmless_model_blocked_notice
  harmless_error_notice harmless_banner harmless_usage
  harmless_gate_events harmless_recorder_events : harmless.

Lemma quarantined_after_input tr p l rest :
  quarantined (tr ++ EvInput p l :: rest) = quarantined rest.
Proof. unfold quarantined. by rewrite foldl_app. Qed.

(** Every event of one pass is guarded. *)
Lemma turn_guarded env line s :
  Forall (justified (trace s)) (messages s) ->
  exists evs, trace (turn env line s).2 = trace s ++ evs /\
              each_event guarded (trace s) evs.
Proof.
  intros Hhist.
  assert (Hh : forall pre evs, Forall harmless evs -> each_event guarded pre evs).
  { intros pre evs. apply each_event_Forall. intros pre' ev. apply harmless_guarded. }
  assert (Hfwd : forall o co,
            verdict o = false ->
            guarded (trace s ++ [EvInput "User: " (Some line); EvModerate line o])
              (EvComplete (messages s ++ [user_message line]) co)).
  { intros o co Hv. split; [|split].
    - intros msgs o' [= <- _]. apply Forall_app; split.
      + eapply Forall_impl; [exact Hhist|]. intros m. apply justified_mono.
      + constructor; [|constructor]. right; right. split; [by left|].
        exists o. split; [|done]. apply elem_of_app. right.
        apply list_elem_of_further, list_elem_of_here.
    - intros reply [=].
    - rewrite quarantined_after_input. cbn. by rewrite Hv. }
  destruct (is_exit_command line) eqn:Hexit.
  { rewrite turn_exit_run by done. cbn [snd trace logs]. eexists. split; [done|].
    apply Hh. constructor; [auto with harmless|].
    constructor; [auto with harmless|constructor]. }
  turn_cases env line s; cbn [snd].
  - rewrite record_trace. unfold user_blocked_state. cbn [trace logs].
    rewrite <- app_assoc. eexists. split; [done|]. apply Hh.
    apply Forall_app; split; [|auto with harmless].
    constructor; [auto with harmless|]. apply Forall_app; split.
    + auto with harmless.
    + constructor; [auto with harmless|constructor].
  - rewrite record_trace. unfold reply_blocked_state. cbn [trace].
    rewrite <- !app_assoc. cbn [app]. eexists. split; [done|].
    cbn [each_event]. split; [auto with harmless|].
    split; [auto with harmless|].
    rewrite <- app_assoc. cbn [app]. split; [by apply Hfwd|].
    apply Hh. apply Forall_app; split; [auto with harmless|].
    constructor; [auto with harmless|].
    auto with harmless.
  - cbn [trace logs]. rewrite record_trace. unfold reply_blocked_state. cbn [trace].
    rewrite <- !app_assoc. cbn [app]. eexists. split; [done|].
    cbn [each_event]. split; [auto with harmless|].
    split; [auto with harmless|].
    rewrite <- app_assoc. cbn [app]. split; [by apply Hfwd|].
    apply Hh. apply Forall_app; split; [auto with harmless|].
    constructor; [auto with harmless|].
    apply Forall_app; split; [auto with harmless|].
    constructor; [auto with harmless|constructor].
  - cbn [trace]. eexists. split; [done|].
    cbn [each_event]. split; [auto with harmless|].
    split; [auto with harmless|].
    rewrite <- app_assoc. cbn [app]. split; [by apply Hfwd|].
    split; [auto with harmless|].
    split; [|done]. rewrite <- !app_assoc. cbn [app].
    split; [|split].
    + intros msgs o [=].
    + intros r Hr. assert (Hr' : display reply = display r) by congruence.
      apply display_inj in Hr'. subst r.
      exists (trace s ++ [EvInput "User: " (Some line);
                          EvModerate line (user_check env line s);
                          EvComplete (messages s ++ [user_message line])
                            (completion env line s)]),
             (reply_check env reply s).
      split; [|done]. by rewrite <- app_assoc.
    + rewrite quarantined_after_input. cbn. by rewrite Hv, Hv2.
  - cbn [trace]. eexists. split; [done|].
    cbn [each_event]. split; [auto with harmless|].
    split; [auto with harmless|].
    rewrite <- app_assoc. cbn [app]. split; [by apply Hfwd|].
    split; [auto with harmless|done].
Qed.

Lemma quarantined_since pre text o mid :
  verdict o = true ->
  Forall (fun ev => is_input ev = false) mid ->
  quarantined (pre ++ EvModerate text o :: mid) = true.
Proof.
  intros Hv Hmid. unfold quarantined. rewrite foldl_app. cbn [foldl quarantine_step].
  rewrite Hv, orb_true_r. induction Hmid as [|ev mid Hev _ IH]; [done|].
  cbn [foldl]. by destruct ev.
Qed.

(** The trace of a session is guarded throughout, and its history is
    accounted for. *)
Lemma session_guarded env fs stdin :
  each_event guarded [] (trace (run_chatbot env stdin (initial_state fs)).2).
Proof.
  set (I := fun s => each_event guarded [] (trace s) /\
                     Forall (justified (trace s)) (messages s)).
  enough (H : I (run_chatbot env stdin (initial_state fs)).2) by apply H.
  apply run_chatbot_invariant; subst I; cbn beta.
  - by split.
  - intros s Hs. rewrite startup_run in Hs.
    destruct (getenv_OPENAI_API_KEY env) as [[|c k]|]; simplify_eq.
    cbn. split.
    + split; [auto with harmless|].
      split; [auto with harmless|done].
    + constructor; [by left|constructor].
  - intros s line [Hg Hh]. split.
    + destruct (turn_guarded env line s Hh) as (evs & -> & Hevs).
      apply each_event_app. by split.
    + destruct (turn_history env line s) as (evs & added & Ht & Hm & Ha).
      rewrite Hm. apply Forall_app; split; [|done]. rewrite Ht.
      eapply Forall_impl; [exact Hh|]. intros m. apply justified_mono.
  - intros s [Hg Hh]. cbn [trace messages logs]. split.
    + apply each_event_app. split; [done|].
      split; [auto with harmless|done].
    + eapply Forall_impl; [exact Hh|]. intros m. apply justified_mono.
Qed.

(** C3: in every state a session passes through, each entry of the
    history is the system message, the fixed placeholder, or a user or
    assistant message whose text the gate had cleared by then; the same
    holds of the history in the middle of a pass, as it is handed to the
    completion service; and a pass in which the reply is flagged appends
    the user line and the placeholder, never the reply. *)
Theorem history_holds_only_cleared_text (env : Env) :
  (forall (fs : gmap string string) (s : State),
     reachable env fs s -> Forall (justified (trace s)) (messages s)) /\
  (forall (fs : gmap string string) (stdin : list string) pre msgs o post,
     trace (run_chatbot env stdin (initial_state fs)).2 =
       pre ++ EvComplete msgs o :: post ->
     Forall (justified pre) msgs) /\
  (forall (line reply : string) (s : State),
     is_exit_command line = false ->
     verdict (user_check env line s) = false ->
     completion_reply (completion env line s) = Returns reply ->
     verdict (reply_check env reply s) = true ->
     messages (turn env line s).2 = messages s ++ [user_message line; placeholder]).
Proof.
  split; [apply history_justified|]. split.
  - intros fs stdin pre msgs o post Htr.
    destruct (each_event_split _ _ _ _ _ _ (session_guarded env fs stdin) Htr)
      as (Hf & _ & _).
    exact (Hf msgs o eq_refl).
  - intros line reply s Hexit Hv Hc Hv2.
    rewrite (turn_reply_blocked_run env line s reply) by done.
    destruct (record_flagged_content env reply _).1 eqn:E;
      cbn [snd messages logs]; by rewrite record_messages.
Qed.

Lemma history_holds_only_cleared_text_witness :
  Forall (justified (trace (turn Scenario.world "hello" Scenario.ready).2))
    (messages (turn Scenario.world "hello" Scenario.ready).2) /\
  Forall (justified
            [EvPrint banner; EvPrint usage; EvInput "User: " (Some "hello");
             EvModerate "hello" Scenario.clean_answer])
    [system_message; user_message "hello"] /\
  messages (turn Scenario.world "provoke" Scenario.ready).2 =
    messages Scenario.ready ++ [user_message "provoke"; placeholder].
Proof.
  split; [|split].
  - apply (proj1 (history_holds_only_cleared_text Scenario.world) ∅).
    apply reach_turn. apply at_prompt_start. reflexivity.
  - apply (proj1 (proj2 (history_holds_only_cleared_text Scenario.world))
             ∅ ["hello"; "quit"]
             [EvPrint banner; EvPrint usage; EvInput "User: " (Some "hello");
              EvModerate "hello" Scenario.clean_answer]
             [system_message; user_message "hello"]
             (Scenario.reply_answer "  hi there  ")
             [EvModerate "hi there" Scenario.clean_answer;
              EvPrint (display "hi there");
              EvInput "User: " (Some "quit"); EvPrint goodbye]).
    vm_compute. reflexivity.
  - apply (proj2 (proj2 (history_holds_only_cleared_text Scenario.world))
             "provoke" "rude reply" Scenario.ready); reflexivity.
Defined.

(** C1: in the trace of any session, after a flagged verdict and until
    the console is read again there is no request to the completion
    service and no reply is shown; every message in a request to the
    completion service is the system message, the placeholder, or text
    the gate had cleared before the request; and a reply is shown only
    right after the gate cleared that very text. *)
Theorem flagged_text_not_forwarded_nor_shown (env : Env)
    (fs : gmap string string) (stdin : list string) :
  let tr := trace (run_chatbot env stdin (initial_state fs)).2 in
  (forall pre text o mid ev post,
     tr = pre ++ EvModerate text o :: mid ++ ev :: post ->
     verdict o = true ->
     Forall (fun e => is_input e = false) mid ->
     is_completion ev = false /\ forall reply, ev <> EvPrint (display reply)) /\
  (forall pre msgs o post,
     tr = pre ++ EvComplete msgs o :: post ->
     forall m, m ∈ msgs ->
       m = system_message \/ m = placeholder \/ clean_checked pre (content m)) /\
  (forall pre reply post,
     tr = pre ++ EvPrint (display reply) :: post ->
     exists pre' o, pre = pre' ++ [EvModerate reply o] /\ verdict o = false).
Proof.
  intros tr. pose proof (session_guarded env fs stdin) as Hg. fold tr in Hg.
  split; [|split].
  - intros pre text o mid ev post Htr Hv Hmid.
    assert (Htr' : tr = (pre ++ EvModerate text o :: mid) ++ ev :: post).
    { rewrite Htr. rewrite <- app_assoc. done. }
    destruct (each_event_split _ _ _ _ _ _ Hg Htr') as (_ & _ & Hq).
    apply Hq. cbn [app]. by apply quarantined_since.
  - intros pre msgs o post Htr m Hm.
    destruct (each_event_split _ _ _ _ _ _ Hg Htr) as (Hf & _ & _).
    specialize (Hf msgs o eq_refl). cbn [app] in Hf.
    rewrite Forall_forall in Hf. destruct (Hf m Hm) as [H|[H|[_ H]]]; auto.
  - intros pre reply post Htr.
    destruct (each_event_split _ _ _ _ _ _ Hg Htr) as (_ & Hd & _).
    exact (Hd reply eq_refl).
Qed.

Lemma flagged_text_not_forwarded_nor_shown_witness :
  (is_completion (EvPrint user_blocked_notice) = false /\
   forall reply, EvPrint user_blocked_notice <> EvPrint (display reply)) /\
  (user_message "hello" = system_message \/
   user_message "hello" = placeholder \/
   clean_checked
     [EvPrint banner; EvPrint usage; EvInput "User: " (Some "hello");
      EvModerate "hello" Scenario.clean_answer]
     (content (user_message "hello"))) /\
  exists pre' o,
    [EvPrint banner; EvPrint usage; EvInput "User: " (Some "hello");
     EvModerate "hello" Scenario.clean_answer;
     EvComplete [system_message; user_message "hello"]
       (Scenario.reply_answer "  hi there  ");
     EvModerate "hi there" Scenario.clean_answer] =
    pre' ++ [EvModerate "hi there" o] /\ verdict o = false.
Proof.
  split; [|split].
  - apply (proj1 (flagged_text_not_forwarded_nor_shown Scenario.world ∅ ["bad"; "quit"])
             [EvPrint banner; EvPrint usage; EvInput "User: " (Some "bad")]
             "bad" Scenario.flagged_answer [] (EvPrint user_blocked_notice)
             (recorder_events Scenario.world 5 "bad" ++
              [EvInput "User: " (Some "quit"); EvPrint goodbye])).
    + vm_compute. reflexivity.
    + reflexivity.
    + constructor.
  - refine (proj1 (proj2 (flagged_text_not_forwarded_nor_shown Scenario.world ∅
                            ["hello"; "quit"]))
              [EvPrint banner; EvPrint usage; EvInput "User: " (Some "hello");
               EvModerate "hello" Scenario.clean_answer]
              [system_message; user_message "hello"]
              (Scenario.reply_answer "  hi there  ")
              [EvModerate "hi there" Scenario.clean_answer;
               EvPrint (display "hi there");
               EvInput "User: " (Some "quit"); EvPrint goodbye]
              _ (user_message "hello") _).
    + vm_compute. reflexivity.
    + apply list_elem_of_further, list_elem_of_here.
  - apply (proj2 (proj2 (flagged_text_not_forwarded_nor_shown Scenario.world ∅
                           ["hello"; "quit"]))
             [EvPrint banner; EvPrint usage; EvInput "User: " (Some "hello");
              EvModerate "hello" Scenario.clean_answer;
              EvComplete [system_message; user_message "hello"]
                (Scenario.reply_answer "  hi there  ");
              EvModerate "hi there" Scenario.clean_answer]
             "hi there"
             [EvInput "User: " (Some "quit"); EvPrint goodbye]).
    vm_compute. reflexivity.
Defined.

(** C1 as worded speaks of texts, but a verdict belongs to one check and
    the verdict on a text can change.  A line cleared at one check stays
    in the history; when a later check of the same text comes out
    flagged, that text is still part of the next request to the
    completion service. *)
Lemma cleared_text_flagged_later_is_forwarded :
  let tr := trace (run_chatbot Corner.world_second_thoughts
                     ["x"; "x"; "hello"; "quit"] (initial_state ∅)).2 in
  tr !! 3 = Some (EvModerate "x" Scenario.clean_answer) /\
  tr !! 8 = Some (EvModerate "x" Scenario.flagged_answer) /\
  verdict Scenario.flagged_answer = true /\
  tr !! 18 =
    Some (EvComplete
            [system_message;
             {| role := "user"; content := "x" |};
             {| role := "assistant"; content := "hi there" |};
             {| role := "user"; content := "hello" |}]
            (Scenario.reply_answer "  hi there  ")).
Proof. repeat split; vm_compute; reflexivity. Qed.

(** ** Counting escalations *)

Lemma marks_app a b : marks (a ++ b) = marks a ++ marks b.
Proof. apply flat_map_app. Qed.

Lemma run_steps_marks env steps : forall n,
  exists k, marks (run_steps env n steps).1 = MRun <$> take k steps /\
            (steps <> [] -> 1 <= k) /\ k <= length steps.
Proof.
  induction steps as [|argv steps IH]; intros n; cbn [run_steps].
  - exists 0. by cbn.
  - destruct (subprocess_run env n argv) as [u|e].
    + destruct (IH (S n)) as (k & Hk & _ & Hle).
      destruct (run_steps env (S n) steps) as [evs stop]. cbn [fst] in *.
      exists (S k). cbn. unfold marks in Hk. rewrite Hk.
      split; [done|]. split; lia.
    + exists 1. cbn. split; [by rewrite take_0|]. split; lia.
Qed.

Lemma gate_events_marks text o :
  marks (gate_events text o) = if verdict o then [MFlagged text] else [].
Proof.
  unfold gate_events. destruct (gate_error o); cbn; by rewrite app_nil_r.
Qed.

(** The marks one call of the Recorder leaves. *)
Lemma recorder_events_marks env n text :
  exists k, (recorder_write env n text = Written -> 1 <= k <= 3) /\
    MFlagged text :: marks (recorder_events env n text) =
    escalation_marks {| esc_text := text; esc_time := datetime_now env n;
                        esc_write := recorder_write env n text;
                        esc_steps := k |}.
Proof.
  unfold recorder_events, escalation_marks.
  cbn [esc_text esc_time esc_write esc_steps].
  set (filename := artifact_name (strftime (datetime_now env n))).
  destruct (recorder_write env n text) as [|e0 remains].
  2:{ exists 0. split; [done|]. reflexivity. }
  destruct (run_steps_marks env (publish_steps filename) (2 + n)) as (k & Hk & Hk1 & Hk3).
  exists k. split; [intros _; split; [by apply Hk1|exact Hk3]|].
  change (EvNow ?d :: EvWrite ?f ?c :: ?rest) with ([EvNow d; EvWrite f c] ++ rest).
  rewrite !marks_app, Hk. cbn [app]. do 3 f_equal.
  assert (Hreport : marks (publish_report filename
                     (run_steps env (2 + n) (publish_steps filename)).2) = []).
  { unfold publish_report. destruct (run_steps _ _ _).2 as [e|];
      [destruct (is_CalledProcessError e)|]; reflexivity. }
  rewrite Hreport. by rewrite app_nil_r.
Qed.

Lemma marks_cons ev tr : marks (ev :: tr) = mark ev ++ marks tr.
Proof. reflexivity. Qed.

Lemma marks_nil : marks [] = [].
Proof. reflexivity. Qed.

(** When the Recorder returns, its write had gone through. *)
Lemma recorder_returns_written env n text u :
  recorder_outcome env n text = Returns u -> recorder_write env n text = Written.
Proof. unfold recorder_outcome. by destruct (recorder_write env n text). Qed.

(** The escalations of one pass: none or one; the loop goes on only after
    an escalation whose write went through. *)
Lemma turn_escalations env line s :
  exists evs escs,
    trace (turn env line s).2 = trace s ++ evs /\
    marks evs = flat_map escalation_marks escs /\
    Forall (fun e => esc_write e = Written -> 1 <= esc_steps e <= 3) escs /\
    ((turn env line s).1 = Returns Continue ->
     Forall (fun e => esc_write e = Written) escs) /\
    length escs <= 1 /\
    files (turn env line s).2 = foldl escalation_file (files s) escs.
Proof.
  destruct (is_exit_command line) eqn:Hexit.
  { rewrite turn_exit_run by done. cbn [fst snd trace files logs].
    eexists _, []. split; [done|]. cbn. repeat split; (done || lia). }
  turn_cases env line s; cbn [fst snd].
  - rewrite record_trace, record_files, record_outcome. unfold user_blocked_state.
    cbn [trace files logs]. rewrite <- app_assoc.
    set (n := length (trace s ++ _)).
    destruct (recorder_events_marks env n line) as (k & Hk & Hm).
    eexists _, [_]. split; [done|]. split; [|split; [|split; [|split]]].
    + cbn [flat_map]. rewrite app_nil_r, <- Hm.
      rewrite !marks_app, !marks_cons, !marks_app, gate_events_marks, Hv, ?marks_nil.
      cbn [mark app]. reflexivity.
    + by constructor.
    + destruct (recorder_outcome env n line) as [u|e] eqn:Hout; [|done].
      intros _. constructor; [|constructor]. cbn [esc_write].
      by eapply recorder_returns_written.
    + cbn. lia.
    + reflexivity.
  - rewrite record_trace, record_files. unfold reply_blocked_state.
    cbn [trace files logs]. rewrite <- !app_assoc.
    set (n := length (trace s ++ _)).
    destruct (recorder_events_marks env n reply) as (k & Hk & Hm).
    eexists _, [_]. split; [done|]. split; [|split; [|split; [|split]]].
    + cbn [flat_map]. rewrite app_nil_r, <- Hm.
      rewrite !marks_app, !marks_cons, ?marks_app, gate_events_marks, Hv2, ?marks_nil.
      cbn [mark app]. rewrite Hv. reflexivity.
    + by constructor.
    + intros _. constructor; [|constructor]. cbn [esc_write].
      match goal with H : (record_flagged_content _ _ _).1 = Returns _ |- _ =>
        rewrite record_outcome in H;
        eapply recorder_returns_written; exact H end.
    + cbn. lia.
    + reflexivity.
  - cbn [trace files logs]. rewrite record_trace, record_files.
    unfold reply_blocked_state. cbn [trace files logs]. rewrite <- !app_assoc.
    set (n := length (trace s ++ _)).
    destruct (recorder_events_marks env n reply) as (k & Hk & Hm).
    eexists _, [_]. split; [done|]. split; [|split; [|split; [|split]]].
    + cbn [flat_map]. rewrite app_nil_r, <- Hm.
      rewrite !marks_app, !marks_cons, ?marks_app, gate_events_marks, Hv2, ?marks_nil.
      cbn [mark app]. rewrite Hv. cbn [app]. by rewrite app_nil_r.
    + by constructor.
    + done.
    + cbn. lia.
    + reflexivity.
  - cbn [trace files]. eexists _, []. split; [done|].
    rewrite !marks_cons, marks_nil. cbn [mark]. rewrite Hv, Hv2.
    split; [done|]. split; [done|]. split; [done|]. split; [cbn; lia|done].
  - cbn [trace files]. eexists _, []. split; [done|].
    rewrite !marks_cons, marks_nil. cbn [mark]. rewrite Hv.
    split; [done|]. split; [done|]. split; [done|]. split; [cbn; lia|done].
Qed.

Lemma gate_events_input_free text o :
  Forall (fun ev => is_input ev = false) (gate_events text o).
Proof. unfold gate_events. destruct (gate_error o); by repeat constructor. Qed.

Lemma gate_events_no_failed_write text o :
  Forall (fun ev => is_failed_write ev = false) (gate_events text o).
Proof. unfold gate_events. destruct (gate_error o); by repeat constructor. Qed.

Lemma recorder_events_input_free env n text :
  Forall (fun ev => is_input ev = false) (recorder_events env n text).
Proof.
  eapply Forall_impl; [apply recorder_events_escalation|]. by intros [].
Qed.

Lemma recorder_events_no_failed_write env n text :
  recorder_write env n text = Written ->
  Forall (fun ev => is_failed_write ev = false) (recorder_events env n text).
Proof.
  intros Hw. unfold recorder_events. rewrite Hw. do 2 (constructor; [done|]).
  apply Forall_app; split.
  - eapply Forall_impl; [apply run_steps_events|]. by intros ev (argv & o & ->).
  - unfold publish_report. destruct (run_steps _ _ _).2 as [e|];
      [destruct (is_CalledProcessError e)|]; by repeat constructor.
Qed.

Ltac event_wise leaf :=
  repeat first
    [ leaf
    | apply Forall_nil_2
    | apply Forall_app_2
    | apply Forall_cons_2 ].

(** One pass reads the console once, at its start; and the loop goes on
    only after a pass in which no write failed. *)
Lemma turn_reads_once env line s :
  exists rest,
    trace (turn env line s).2 = trace s ++ EvInput "User: " (Some line) :: rest /\
    Forall (fun ev => is_input ev = false) rest /\
    ((turn env line s).1 = Returns Continue ->
     Forall (fun ev => is_failed_write ev = false) rest).
Proof.
  destruct (is_exit_command line) eqn:Hexit.
  { rewrite turn_exit_run by done. cbn [fst snd trace logs].
    eexists. split; [done|]. split; [by repeat constructor|done]. }
  turn_cases env line s; cbn [fst snd trace logs];
    rewrite ?record_trace, ?record_outcome;
    unfold user_blocked_state, reply_blocked_state;
    cbn [trace logs]; rewrite <- ?app_assoc; cbn [app];
    (eexists; split; [reflexivity|]);
    (split;
     [event_wise ltac:(first [ apply gate_events_input_free
                             | apply recorder_events_input_free
                             | reflexivity ])|]).
  - set (n := length _).
    destruct (recorder_outcome env n line) as [u|e] eqn:Hout; [|done].
    intros _. apply recorder_returns_written in Hout.
    event_wise ltac:(first [ apply gate_events_no_failed_write
                           | by apply recorder_events_no_failed_write
                           | reflexivity ]).
  - intros _.
    match goal with H : (record_flagged_content _ _ _).1 = Returns _ |- _ =>
      rewrite record_outcome in H; apply recorder_returns_written in H;
      unfold reply_blocked_state in H; cbn [trace] in H;
      rewrite <- ?app_assoc in H; cbn [app] in H;
      event_wise ltac:(first [ apply gate_events_no_failed_write
                             | by apply recorder_events_no_failed_write
                             | reflexivity ])
    end.
  - done.
  - intros _. event_wise ltac:(reflexivity).
  - done.
Qed.

(** Throughout a session, whenever the console is read no write has
    failed before. *)
Lemma session_reads_after_good_writes env fs stdin :
  each_event read_after_good_writes []
    (trace (run_chatbot env stdin (initial_state fs)).2).
Proof.
  assert (Hfree : forall pre evs,
            Forall (fun ev => is_input ev = false) evs ->
            each_event read_after_good_writes pre evs).
  { intros pre evs. apply each_event_Forall. intros pre' ev Hev Hin.
    by rewrite Hev in Hin. }
  apply (run_chatbot_prompt_invariant env
           (fun s => Forall (fun ev => is_failed_write ev = false) (trace s) /\
                     each_event read_after_good_writes [] (trace s))
           (fun s => each_event read_after_good_writes [] (trace s))).
  - exact I.
  - intros s Hs. rewrite startup_run in Hs.
    destruct (getenv_OPENAI_API_KEY env) as [[|c k]|]; simplify_eq.
    cbn [trace initial_state app]. split; [by repeat constructor|].
    apply Hfree. by repeat constructor.
  - intros s line [Hgood Hreads].
    destruct (turn_reads_once env line s) as (rest & Htr & Hrest & Hcont).
    assert (HJ : each_event read_after_good_writes [] (trace (turn env line s).2)).
    { rewrite Htr. apply each_event_app. split; [done|]. cbn [app each_event].
      split; [by intros _|]. by apply Hfree. }
    destruct (turn env line s) as [[[]|e] s']; cbn [fst snd] in *; try exact HJ.
    split; [|exact HJ]. rewrite Htr. apply Forall_app. split; [done|].
    constructor; [done|]. by apply Hcont.
  - intros s [Hgood Hreads]. cbn [trace logs]. apply each_event_app.
    split; [done|]. cbn [app each_event]. split; [by intros _|done].
Qed.

(** After escalations whose writes all went through, at most one more:
    only the last escalation can be one whose write failed. *)
Lemma failed_write_last (escs escs' : list Escalation) :
  Forall (fun e => esc_write e = Written) escs ->
  length escs' <= 1 ->
  forall pre e post,
    escs ++ escs' = pre ++ e :: post -> post <> [] -> esc_write e = Written.
Proof.
  intros Hall Hlen pre e post Heq Hpost.
  assert (Hlook : (escs ++ escs') !! length pre = Some e).
  { rewrite Heq. by apply list_lookup_middle. }
  assert (Hlt : length pre < length escs).
  { apply (f_equal length) in Heq. rewrite !length_app in Heq. cbn [length] in Heq.
    destruct post; [done|]. cbn [length] in Heq. lia. }
  rewrite lookup_app_l in Hlook by done.
  rewrite Forall_forall in Hall. apply Hall.
  by eapply list_elem_of_lookup_2.
Qed.

(** C5: the flagged verdicts, clock reads, file writes and commands of a
    session come in groups, one per flagged verdict and none otherwise:
    the verdict, one read of the clock, and one attempt to write the
    artifact made from that time and text.  When the write goes through,
    the publish steps follow in order, at least the first and at most
    all three; when it fails, no command is run and the console is not
    read again, so that only the last group of a session can be one with
    a failed write.  The three steps are [git add], [git commit] and
    [git push].  A write that goes through creates the file when its
    name is free and replaces it when an artifact of the same second is
    there. *)
Theorem one_escalation_per_flagged_verdict (env : Env) :
  (forall (fs : gmap string string) (stdin : list string),
     let s := (run_chatbot env stdin (initial_state fs)).2 in
     exists escs : list Escalation,
       marks (trace s) = flat_map escalation_marks escs /\
       Forall (fun e => esc_write e = Written -> 1 <= esc_steps e <= 3) escs /\
       (forall pre e post,
          escs = pre ++ e :: post -> post <> [] -> esc_write e = Written) /\
       files s = foldl escalation_file fs escs) /\
  (forall (fs : gmap string string) (stdin : list string) pre ev post,
     trace (run_chatbot env stdin (initial_state fs)).2 = pre ++ ev :: post ->
     is_input ev = true ->
     Forall (fun e => is_failed_write e = false) pre) /\
  (forall filename : string,
     publish_steps filename =
     [["git"; "add"; filename];
      ["git"; "commit"; "-m"; "Add flagged content file " +:+ filename];
      ["git"; "push"; "origin"; "main"]]) /\
  (forall (text : string) (s : State),
     let timestamp := strftime (datetime_now env (length (trace s))) in
     let filename := artifact_name timestamp in
     let s' := (record_flagged_content env text s).2 in
     file_write env (1 + length (trace s)) filename (artifact_body timestamp text)
       = Written ->
     (files s !! filename = None -> size (files s') = S (size (files s))) /\
     (is_Some (files s !! filename) -> size (files s') = size (files s))).
Proof.
  split; [|split; [|split]].
  - intros fs stdin.
    apply (run_chatbot_prompt_invariant env
             (fun s => exists escs,
                marks (trace s) = flat_map escalation_marks escs /\
                Forall (fun e => esc_write e = Written -> 1 <= esc_steps e <= 3) escs /\
                Forall (fun e => esc_write e = Written) escs /\
                files s = foldl escalation_file fs escs)
             (fun s => exists escs,
                marks (trace s) = flat_map escalation_marks escs /\
                Forall (fun e => esc_write e = Written -> 1 <= esc_steps e <= 3) escs /\
                (forall pre e post,
                   escs = pre ++ e :: post -> post <> [] -> esc_write e = Written) /\
                files s = foldl escalation_file fs escs)).
    + exists []. split; [done|]. split; [done|]. split; [|done].
      intros pre e post H. by destruct pre.
    + intros s Hs. rewrite startup_run in Hs.
      destruct (getenv_OPENAI_API_KEY env) as [[|c k]|]; simplify_eq.
      by exists [].
    + intros s line (escs & Hm & Hk & Hw & Hf).
      destruct (turn_escalations env line s)
        as (evs & escs' & Htr & Hm' & Hk' & Hw' & Hlen & Hf').
      assert (HJ : exists escs0,
                marks (trace (turn env line s).2) = flat_map escalation_marks escs0 /\
                Forall (fun e => esc_write e = Written -> 1 <= esc_steps e <= 3) escs0 /\
                (forall pre e post,
                   escs0 = pre ++ e :: post -> post <> [] -> esc_write e = Written) /\
                files (turn env line s).2 = foldl escalation_file fs escs0).
      { exists (escs ++ escs').
        rewrite Htr, marks_app, flat_map_app, foldl_app, Hm, Hm', Hf', Hf.
        split; [done|]. split; [by apply Forall_app|]. split; [|done].
        by apply failed_write_last. }
      destruct (turn env line s) as [[[]|e] s'] eqn:Hturn; cbn [fst snd] in *;
        try exact HJ.
      exists (escs ++ escs').
      rewrite Htr, marks_app, flat_map_app, foldl_app, Hm, Hm', Hf', Hf.
      split; [done|]. split; [by apply Forall_app|]. split; [|done].
      apply Forall_app. split; [done|]. by apply Hw'.
    + intros s (escs & Hm & Hk & Hw & Hf). exists escs. cbn [trace files logs].
      rewrite marks_app, Hm. cbn. rewrite app_nil_r.
      split; [done|]. split; [done|]. split; [|done].
      intros pre e post Heq _. rewrite Forall_forall in Hw. apply Hw.
      rewrite Heq. apply elem_of_app. right. apply list_elem_of_here.
  - intros fs stdin pre ev post Htr.
    exact (each_event_split _ _ _ _ _ _
             (session_reads_after_good_writes env fs stdin) Htr).
  - reflexivity.
  - intros text s timestamp filename s' Hw. subst s'. rewrite record_files.
    unfold recorder_file, recorder_write. fold timestamp. fold filename.
    change (S (length (trace s))) with (1 + length (trace s)). rewrite Hw.
    cbn [after_write]. split.
    + intros Hfree. by apply map_size_insert_None.
    + intros [old Hold]. by eapply map_size_insert_Some.
Qed.

Lemma one_escalation_per_flagged_verdict_witness :
  size (files (record_flagged_content Scenario.world "bad" Scenario.ready).2) =
    S (size (files Scenario.ready)) /\
  size (files (record_flagged_content Scenario.world "worse"
                 (record_flagged_content Scenario.world "bad" Scenario.ready).2).2) =
    size (files (record_flagged_content Scenario.world "bad" Scenario.ready).2).
Proof.
  split.
  - apply (proj2 (proj2 (proj2 (one_escalation_per_flagged_verdict Scenario.world)))
             "bad" Scenario.ready).
    + reflexivity.
    + vm_compute. reflexivity.
  - apply (proj2 (proj2 (proj2 (one_escalation_per_flagged_verdict Scenario.world)))
             "worse" (record_flagged_content Scenario.world "bad" Scenario.ready).2).
    + reflexivity.
    + exists (artifact_body "20240307_120000" "bad"). vm_compute. reflexivity.
Defined.

(** C5 speaks of new files, one for each flagged verdict.  Two lines
    flagged within the same second give two flagged verdicts but leave
    one artifact file, the second write replacing what the first had
    written; and where the file cannot be written a flagged verdict
    leaves no artifact, starts no publish attempt and ends the session. *)
Lemma same_second_overwrites :
  (let s := (run_chatbot Scenario.world ["bad"; "worse"; "quit"] (initial_state ∅)).2 in
   length (filter (fun ev => is_flagged_verdict ev = true) (trace s)) = 2 /\
   files s = {[ "flagged_event_20240307_120000.txt" :=
                artifact_body "20240307_120000" "worse" ]}) /\
  (let r := run_chatbot Corner.world_read_only ["bad"; "hello"] (initial_state ∅) in
   length (filter (fun ev => is_flagged_verdict ev = true) (trace r.2)) = 1 /\
   files r.2 = ∅ /\
   filter (fun ev => is_run ev = true) (trace r.2) = [] /\
   r.1 = Raises {| exc_class := OSError;
                   exc_str := "[Errno 13] Permission denied: 'flagged_event_20240307_120000.txt'" |}).
Proof. repeat split; vm_compute; reflexivity. Qed.

(** * Further properties of the program *)

(** ** Starting up *)

Lemma chat_loop_trace_extends env stdin s :
  exists evs, trace (chat_loop env stdin s).2 = trace s ++ evs.
Proof.
  apply (chat_loop_invariant env (fun s' => exists evs, trace s' = trace s ++ evs)).
  - intros s0 line (evs & Hs0).
    destruct (turn_history env line s0) as (evs' & _ & -> & _).
    exists (evs ++ evs'). by rewrite Hs0, app_assoc.
  - intros s0 (evs & Hs0). exists (evs ++ [EvInput "User: " None]).
    cbn [trace logs]. by rewrite Hs0, app_assoc.
  - exists []. by rewrite app_nil_r.
Qed.

(** X1: without an API key in the environment (unset, or set to the empty
    string) [run_chatbot] raises [ValueError] before it prints or reads
    anything; with a key it prints the banner and the usage line first,
    in the words of the source, and starts the loop on a history that
    holds the system message alone. *)
Theorem missing_key_stops_before_anything (env : Env) (stdin : list string)
    (s : State) :
  let start :=
    {| messages :=
         [{| role := "system";
             content := "You are a helpful assistant specialized in technology topics." |}];
       files := files s;
       trace := trace s ++
         [EvPrint (Py.nl +:+ "=== GPT-3.5-Turbo Chatbot (Moderate User & Model, then Commit Flagged File) ===");
          EvPrint ("Type 'exit' or 'quit' to end the session." +:+ Py.nl)] |} in
  (getenv_OPENAI_API_KEY env = None \/ getenv_OPENAI_API_KEY env = Some "" ->
   run_chatbot env stdin s =
   (Raises {| exc_class := ValueError; exc_str := "OPENAI_API_KEY not set." |}, s)) /\
  (forall key, getenv_OPENAI_API_KEY env = Some key -> key <> "" ->
   run_chatbot env stdin s = chat_loop env stdin start /\
   exists evs,
     trace (run_chatbot env stdin s).2 = trace start ++ evs).
Proof.
  intros start. split.
  - intros Hkey. unfold run_chatbot, bind. rewrite startup_run.
    by destruct Hkey as [-> | ->].
  - intros key Hkey Hne.
    assert (Hrun : run_chatbot env stdin s = chat_loop env stdin start).
    { unfold run_chatbot, bind. rewrite startup_run, Hkey. by destruct key. }
    split; [exact Hrun|]. rewrite Hrun.
    apply chat_loop_trace_extends.
Qed.

Lemma missing_key_stops_before_anything_witness :
  run_chatbot Corner.world_without_key ["hello"; "quit"] (initial_state ∅) =
  (Raises {| exc_class := ValueError; exc_str := "OPENAI_API_KEY not set." |},
   initial_state ∅) /\
  run_chatbot Scenario.world ["quit"] (initial_state ∅) =
    chat_loop Scenario.world ["quit"]
      {| messages :=
           [{| role := "system";
               content := "You are a helpful assistant specialized in technology topics." |}];
         files := ∅;
         trace :=
           [EvPrint (Py.nl +:+ "=== GPT-3.5-Turbo Chatbot (Moderate User & Model, then Commit Flagged File) ===");
            EvPrint ("Type 'exit' or 'quit' to end the session." +:+ Py.nl)] |} /\
  exists evs,
    trace (run_chatbot Scenario.world ["quit"] (initial_state ∅)).2 =
    [EvPrint (Py.nl +:+ "=== GPT-3.5-Turbo Chatbot (Moderate User & Model, then Commit Flagged File) ===");
     EvPrint ("Type 'exit' or 'quit' to end the session." +:+ Py.nl)] ++ evs.
Proof.
  split.
  - apply (proj1 (missing_key_stops_before_anything Corner.world_without_key
                    ["hello"; "quit"] (initial_state ∅))).
    left. reflexivity.
  - apply (proj2 (missing_key_stops_before_anything Scenario.world
                    ["quit"] (initial_state ∅)) "sk-test");
      [reflexivity | discriminate].
Defined.

(** ** The gate and the Recorder, on their own *)

(** X2: one call of [moderate_text] sends exactly one request, for the
    text it was given; it leaves the history and the files alone, and it
    prints, a moderation error notice, exactly when the request raised
    or the response held no result. *)
Theorem moderate_text_one_request (env : Env) (text : string) (s : State) :
  let o := moderations_create env (length (trace s)) text in
  messages (moderate_text env text s).2 = messages s /\
  files (moderate_text env text s).2 = files s /\
  trace (moderate_text env text s).2 =
    trace s ++ EvModerate text o ::
      match o with
      | Raises e => [EvPrint ("Moderation API error: " +:+ exc_str e)]
      | Returns response =>
          match results response with
          | [] => [EvPrint "Moderation API error: list index out of range"]
          | _ :: _ => []
          end
      end.
Proof.
  intros o. rewrite moderate_text_run. fold o. cbn [snd messages files trace logs].
  split; [done|]. split; [done|]. unfold gate_events, gate_error.
  destruct o as [response|e]; [|done]. by destruct (results response).
Qed.

Lemma run_steps_stopped env steps e : forall n,
  (run_steps env n steps).2 = Some e ->
  exists pre argv, (run_steps env n steps).1 = pre ++ [EvRun argv (Raises e)] /\
                   argv ∈ steps.
Proof.
  induction steps as [|a steps IH]; intros n; cbn [run_steps]; [done|].
  destruct (subprocess_run env n a) as [u|e'].
  - specialize (IH (S n)). destruct (run_steps env (S n) steps) as [evs stop].
    cbn [fst snd] in *. intros Hstop.
    destruct (IH Hstop) as (pre & argv & -> & Hin).
    exists (EvRun a (Returns u) :: pre), argv. split; [done|].
    by apply list_elem_of_further.
  - cbn [fst snd]. intros [= ->]. exists [], a. split; [done|].
    apply list_elem_of_here.
Qed.

(** X3: the two ways [record_flagged_content] raises.  When the write of
    the artifact raises, the exception goes to the caller at once: no
    git command is run and nothing is printed, and the directory holds
    what the failed write left.  When, the artifact written, a git
    command raises an exception of a class other than
    [CalledProcessError] after the commands before it returned, that
    exception goes to the caller: the commands after it are not run,
    nothing is printed about it, and the artifact stays in place. *)
Theorem recorder_raises_on_write_or_command (env : Env) (text : string)
    (s : State) :
  let n := length (trace s) in
  let timestamp := strftime (datetime_now env n) in
  let filename := artifact_name timestamp in
  let data := artifact_body timestamp text in
  (forall (e : PyExc) (remains : option string),
     file_write env (1 + n) filename data = WriteFails e remains ->
     record_flagged_content env text s =
     (Raises e,
      {| messages := messages s;
         files := match remains with
                  | Some d => <[filename := d]> (files s)
                  | None => files s
                  end;
         trace := trace s ++
           [EvNow (datetime_now env n);
            EvWriteFailed filename data e remains] |})) /\
  (forall (k : nat) (argv : list string) (e : PyExc),
     file_write env (1 + n) filename data = Written ->
     publish_steps filename !! k = Some argv ->
     (forall i argv', i < k -> publish_steps filename !! i = Some argv' ->
                      subprocess_run env (2 + n + i) argv' = Returns tt) ->
     subprocess_run env (2 + n + k) argv = Raises e ->
     exc_class e <> CalledProcessError ->
     record_flagged_content env text s =
     (Raises e,
      {| messages := messages s;
         files := <[filename := data]> (files s);
         trace := trace s ++
           [EvNow (datetime_now env n); EvWrite filename data] ++
           ((fun a => EvRun a (Returns tt)) <$> take k (publish_steps filename)) ++
           [EvRun argv (Raises e)] |})).
Proof.
  intros n timestamp filename data. split.
  - intros e remains Hw. rewrite record_flagged_content_run.
    unfold recorder_outcome, recorder_events, recorder_file, recorder_write.
    fold n. fold timestamp. fold filename. fold data.
    change (S n) with (1 + n). rewrite Hw. by destruct remains.
  - intros k argv e Hw Hk Hbefore Hfail Hclass.
    rewrite record_flagged_content_run.
    unfold recorder_outcome, recorder_events, recorder_file, recorder_write.
    fold n. fold timestamp. fold filename. fold data.
    change (S n) with (1 + n). rewrite Hw. cbn [after_write].
    rewrite (run_steps_first_failure env (2 + n) (publish_steps filename) k argv e)
      by done.
    cbn [fst snd publish_outcome publish_report].
    unfold is_CalledProcessError. rewrite bool_decide_eq_false_2 by done.
    cbn [app]. by rewrite app_nil_r.
Qed.

Lemma recorder_raises_on_write_or_command_witness :
  record_flagged_content Corner.world_read_only "bad" Scenario.ready =
  (Raises {| exc_class := OSError;
             exc_str := "[Errno 13] Permission denied: 'flagged_event_20240307_120000.txt'" |},
   {| messages := [system_message];
      files := ∅;
      trace := trace Scenario.ready ++
        [EvNow Scenario.noon;
         EvWriteFailed "flagged_event_20240307_120000.txt"
           (artifact_body "20240307_120000" "bad")
           {| exc_class := OSError;
              exc_str := "[Errno 13] Permission denied: 'flagged_event_20240307_120000.txt'" |}
           None] |}) /\
  record_flagged_content Scenario.world_without_git "bad" Scenario.ready =
  (Raises {| exc_class := OSError;
             exc_str := "[Errno 2] No such file or directory: 'git'" |},
   {| messages := [system_message];
      files := <["flagged_event_20240307_120000.txt" :=
                 artifact_body "20240307_120000" "bad"]> ∅;
      trace := trace Scenario.ready ++
        [EvNow Scenario.noon;
         EvWrite "flagged_event_20240307_120000.txt"
           (artifact_body "20240307_120000" "bad")] ++
        [] ++
        [EvRun ["git"; "add"; "flagged_event_20240307_120000.txt"]
           (Raises {| exc_class := OSError;
                      exc_str := "[Errno 2] No such file or directory: 'git'" |})] |}).
Proof.
  split.
  - apply (proj1 (recorder_raises_on_write_or_command Corner.world_read_only
                    "bad" Scenario.ready)
             {| exc_class := OSError;
                exc_str := "[Errno 13] Permission denied: 'flagged_event_20240307_120000.txt'" |}
             None).
    reflexivity.
  - apply (proj2 (recorder_raises_on_write_or_command Scenario.world_without_git
                    "bad" Scenario.ready) 0
             ["git"; "add"; "flagged_event_20240307_120000.txt"]
             {| exc_class := OSError;
                exc_str := "[Errno 2] No such file or directory: 'git'" |}).
    + reflexivity.
    + reflexivity.
    + intros i argv' Hi. lia.
    + reflexivity.
    + discriminate.
Defined.

(** X4: when the write of the artifact goes through and the three git
    commands return, [record_flagged_content] has run [git add] on the
    file, [git commit] with the message naming the file and
    [git push origin main], once each and in that order, then printed
    that the file was pushed, and it returns. *)
Theorem publish_success (env : Env) (text : string) (s : State) :
  let n := length (trace s) in
  let timestamp := strftime (datetime_now env n) in
  let filename := artifact_name timestamp in
  let add := ["git"; "add"; filename] in
  let commit := ["git"; "commit"; "-m"; "Add flagged content file " +:+ filename] in
  let push := ["git"; "push"; "origin"; "main"] in
  file_write env (1 + n) filename (artifact_body timestamp text) = Written ->
  subprocess_run env (2 + n) add = Returns tt ->
  subprocess_run env (3 + n) commit = Returns tt ->
  subprocess_run env (4 + n) push = Returns tt ->
  record_flagged_content env text s =
  (Returns tt,
   {| messages := messages s;
      files := <[filename := artifact_body timestamp text]> (files s);
      trace := trace s ++
        [EvNow (datetime_now env n);
         EvWrite filename (artifact_body timestamp text);
         EvRun add (Returns tt);
         EvRun commit (Returns tt);
         EvRun push (Returns tt);
         EvPrint ("Pushed flagged file " +:+ filename +:+
                  " to repo, triggering CircleCI pipeline.")] |}).
Proof.
  intros n timestamp filename add commit push Hw Hadd Hcommit Hpush.
  rewrite record_flagged_content_run.
  unfold recorder_outcome, recorder_events, recorder_file, recorder_write.
  fold n. fold timestamp. fold filename.
  change (S n) with (1 + n). rewrite Hw.
  cbn [run_steps publish_steps after_write].
  change (git_add filename) with add. rewrite Hadd.
  change (S (2 + n)) with (3 + n).
  change (git_commit filename) with commit. rewrite Hcommit.
  change (S (3 + n)) with (4 + n).
  change git_push with push. rewrite Hpush. reflexivity.
Qed.

Lemma publish_success_witness :
  record_flagged_content Scenario.world "bad" Scenario.ready =
  (Returns tt,
   {| messages := [system_message];
      files := <["flagged_event_20240307_120000.txt" :=
                 artifact_body "20240307_120000" "bad"]> ∅;
      trace := trace Scenario.ready ++
        [EvNow Scenario.noon;
         EvWrite "flagged_event_20240307_120000.txt"
           (artifact_body "20240307_120000" "bad");
         EvRun ["git"; "add"; "flagged_event_20240307_120000.txt"] (Returns tt);
         EvRun ["git"; "commit"; "-m";
                "Add flagged content file flagged_event_20240307_120000.txt"]
           (Returns tt);
         EvRun ["git"; "push"; "origin"; "main"] (Returns tt);
         EvPrint ("Pushed flagged file " +:+ "flagged_event_20240307_120000.txt" +:+
                  " to repo, triggering CircleCI pipeline.")] |}).
Proof.
  apply (publish_success Scenario.world "bad" Scenario.ready); reflexivity.
Defined.

Lemma escalation_event_not_service ev :
  is_escalation_event ev -> is_service_call ev = false /\ is_input ev = false.
Proof. by destruct ev. Qed.

Lemma recorder_events_written_name env n text :
  Forall (fun ev => forall name, written_name ev = Some name ->
                      name = artifact_name (strftime (datetime_now env n)))
    (recorder_events env n text).
Proof.
  unfold recorder_events. constructor; [done|].
  destruct (recorder_write env n text) as [|e0 remains].
  - constructor; [by intros name [= <-]|]. apply Forall_app; split.
    + eapply Forall_impl; [apply run_steps_events|]. by intros ev (argv & o & ->).
    + unfold publish_report. destruct (run_steps _ _ _).2 as [e|];
        [destruct (is_CalledProcessError e)|]; by repeat constructor.
  - constructor; [by intros name [= <-]|constructor].
Qed.

(** X5: [record_flagged_content] does not touch the history, opens no
    file for writing but the artifact, and neither reads the console nor
    calls the moderation or the completion service. *)
Theorem recorder_keeps_to_itself (env : Env) (text : string) (s : State) :
  let filename :=
    artifact_name (strftime (datetime_now env (length (trace s)))) in
  let s' := (record_flagged_content env text s).2 in
  messages s' = messages s /\
  exists evs, trace s' = trace s ++ evs /\
    Forall (fun ev => is_service_call ev = false /\ is_input ev = false /\
                      (is_write ev = true -> written_name ev = Some filename)) evs.
Proof.
  intros filename s'. subst s'. split; [apply record_messages|].
  rewrite record_trace. eexists. split; [done|].
  pose proof (recorder_events_escalation env (length (trace s)) text) as Hesc.
  pose proof (recorder_events_written_name env (length (trace s)) text) as Hname.
  rewrite Forall_forall in Hesc, Hname. apply Forall_forall. intros ev Hev.
  destruct (escalation_event_not_service ev (Hesc ev Hev)) as [H1 H2].
  split; [done|]. split; [done|]. intros Hw.
  specialize (Hname ev Hev). destruct ev; try discriminate Hw.
  - by rewrite (Hname filename0 eq_refl).
  - by rewrite (Hname filename0 eq_refl).
Qed.

Lemma recorder_keeps_to_itself_witness :
  messages (record_flagged_content Corner.world_read_only "bad" Scenario.ready).2 =
    messages Scenario.ready /\
  exists evs,
    trace (record_flagged_content Corner.world_read_only "bad" Scenario.ready).2 =
      trace Scenario.ready ++ evs /\
    Forall (fun ev => is_service_call ev = false /\ is_input ev = false /\
                      (is_write ev = true ->
                       written_name ev = Some "flagged_event_20240307_120000.txt"))
      evs.
Proof.
  apply (recorder_keeps_to_itself Corner.world_read_only "bad" Scenario.ready).
Defined.

Lemma lines_read_app a b : lines_read (a ++ b) = lines_read a ++ lines_read b.
Proof. apply omap_app. Qed.

Lemma lines_read_gate_events text o : lines_read (gate_events text o) = [].
Proof. unfold gate_events. by destruct (gate_error o). Qed.

Lemma lines_read_recorder_events env n text :
  lines_read (recorder_events env n text) = [].
Proof.
  pose proof (recorder_events_escalation env n text) as H.
  induction H as [|ev evs Hev _ IH]; [done|].
  unfold lines_read in *. destruct ev; try done; cbn; exact IH.
Qed.

(** X6: a response of the completion service that cannot be read, because
    it holds no choice or because the content of its first choice is
    [None], ends the session the way an exception of the service does:
    the [IndexError] or [AttributeError] is printed after [Error: ], the
    loop is left without raising, later lines are not read, and the user
    line stays in the history without a reply. *)
Theorem unreadable_completion_ends_session (env : Env) (line : string)
    (rest : list string) (s : State) (response : ChatCompletion) :
  is_exit_command line = false ->
  verdict (user_check env line s) = false ->
  completion env line s = Returns response ->
  (choices response = [] \/
   exists choice others, choices response = choice :: others /\
                         reply_content (message choice) = None) ->
  chat_loop env (line :: rest) s =
  (Returns tt,
   {| messages := messages s ++ [user_message line];
      files := files s;
      trace := trace s ++
        [EvInput "User: " (Some line);
         EvModerate line (user_check env line s);
         EvComplete (messages s ++ [user_message line]) (Returns response);
         EvPrint ("Error: " +:+
                  match choices response with
                  | [] => "list index out of range"
                  | _ :: _ => "'NoneType' object has no attribute 'strip'"
                  end)] |}).
Proof.
  intros Hexit Hv Hc Hbad. rewrite chat_loop_cons.
  destruct Hbad as [Hch|(choice & others & Hch & Hnone)].
  - rewrite (turn_completion_failed_run env line s
               {| exc_class := IndexError; exc_str := "list index out of range" |});
      [|done|done|].
    + by rewrite Hc, Hch.
    + rewrite Hc. unfold completion_reply. by rewrite Hch.
  - rewrite (turn_completion_failed_run env line s
               {| exc_class := AttributeError;
                  exc_str := "'NoneType' object has no attribute 'strip'" |});
      [|done|done|].
    + by rewrite Hc, Hch.
    + rewrite Hc. unfold completion_reply. by rewrite Hch, Hnone.
Qed.

Lemma unreadable_completion_ends_session_witness :
  chat_loop Corner.world_no_choice ["hello"; "more"] Scenario.ready =
  (Returns tt,
   {| messages := [system_message; user_message "hello"];
      files := ∅;
      trace := trace Scenario.ready ++
        [EvInput "User: " (Some "hello");
         EvModerate "hello" Scenario.clean_answer;
         EvComplete [system_message; user_message "hello"]
           (Returns {| choices := [] |});
         EvPrint "Error: list index out of range"] |}) /\
  chat_loop Corner.world_no_content ["hello"; "more"] Scenario.ready =
  (Returns tt,
   {| messages := [system_message; user_message "hello"];
      files := ∅;
      trace := trace Scenario.ready ++
        [EvInput "User: " (Some "hello");
         EvModerate "hello" Scenario.clean_answer;
         EvComplete [system_message; user_message "hello"]
           (Returns {| choices := [{| message := {| reply_content := None |} |}] |});
         EvPrint "Error: 'NoneType' object has no attribute 'strip'"] |}).
Proof.
  split.
  - apply (unreadable_completion_ends_session Corner.world_no_choice "hello"
             ["more"] Scenario.ready {| choices := [] |});
      [reflexivity | reflexivity | reflexivity | left; reflexivity].
  - apply (unreadable_completion_ends_session Corner.world_no_content "hello"
             ["more"] Scenario.ready
             {| choices := [{| message := {| reply_content := None |} |}] |});
      [reflexivity | reflexivity | reflexivity |].
    right. exists {| message := {| reply_content := None |} |}, [].
    split; reflexivity.
Defined.

(** X7: on the flagged-reply path an exception that leaves the Recorder
    is caught by the handler around the completion call: it is printed
    after [Error: ] as the last event, the loop is left without raising
    and without reading further lines, and the history already holds the
    user line and the placeholder. *)
Theorem recorder_exception_after_reply_is_caught (env : Env) (line reply : string)
    (rest : list string) (s : State) (e : PyExc) :
  is_exit_command line = false ->
  verdict (user_check env line s) = false ->
  completion_reply (completion env line s) = Returns reply ->
  verdict (reply_check env reply s) = true ->
  (record_flagged_content env reply (reply_blocked_state env line reply s)).1 =
    Raises e ->
  (chat_loop env (line :: rest) s).1 = Returns tt /\
  last (trace (chat_loop env (line :: rest) s).2) =
    Some (EvPrint ("Error: " +:+ exc_str e)) /\
  messages (chat_loop env (line :: rest) s).2 =
    messages s ++ [user_message line; placeholder] /\
  lines_read (trace (chat_loop env (line :: rest) s).2) =
    lines_read (trace s) ++ [line].
Proof.
  intros Hexit Hv Hc Hv2 Hrec. rewrite chat_loop_cons.
  rewrite (turn_reply_blocked_run env line s reply) by done. rewrite Hrec.
  cbn [fst snd trace messages logs]. split; [done|]. split; [apply last_snoc|].
  split; [by rewrite record_messages|].
  rewrite record_trace. unfold reply_blocked_state. cbn [trace].
  rewrite !lines_read_app, lines_read_gate_events, lines_read_recorder_events.
  cbn. by rewrite !app_nil_r.
Qed.

Lemma recorder_exception_after_reply_is_caught_witness :
  (chat_loop Scenario.world_without_git ["provoke"; "hello"] Scenario.ready).1 =
    Returns tt /\
  last (trace (chat_loop Scenario.world_without_git ["provoke"; "hello"]
                 Scenario.ready).2) =
    Some (EvPrint ("Error: " +:+ "[Errno 2] No such file or directory: 'git'")) /\
  messages (chat_loop Scenario.world_without_git ["provoke"; "hello"]
              Scenario.ready).2 =
    messages Scenario.ready ++ [user_message "provoke"; placeholder] /\
  lines_read (trace (chat_loop Scenario.world_without_git ["provoke"; "hello"]
                       Scenario.ready).2) =
    lines_read (trace Scenario.ready) ++ ["provoke"].
Proof.
  apply (recorder_exception_after_reply_is_caught Scenario.world_without_git
           "provoke" "rude reply" ["hello"] Scenario.ready
           {| exc_class := OSError;
              exc_str := "[Errno 2] No such file or directory: 'git'" |});
    reflexivity.
Defined.

(** ** What a session reads, asks and raises *)

Lemma turn_lines_read env line s :
  lines_read (trace (turn env line s).2) = lines_read (trace s) ++ [line].
Proof.
  destruct (is_exit_command line) eqn:Hexit.
  { rewrite turn_exit_run by done. cbn [snd trace logs]. by rewrite lines_read_app. }
  turn_cases env line s; cbn [snd trace logs];
    rewrite ?record_trace; unfold user_blocked_state, reply_blocked_state;
    cbn [trace logs];
    rewrite ?lines_read_app;
    change (EvInput "User: " (Some line) :: ?l)
      with ([EvInput "User: " (Some line)] ++ l);
    rewrite ?lines_read_app, ?lines_read_gate_events, ?lines_read_recorder_events;
    cbn; by rewrite ?app_nil_r.
Qed.

(** X9: a session reads the console lines in order, each once, and stops
    reading at the first exit keyword at the latest: the lines read are
    an initial part of the lines the console held, and no line after an
    exit keyword is among them. *)
Theorem lines_are_read_in_order (env : Env) (stdin : list string) (s : State) :
  exists k,
    lines_read (trace (chat_loop env stdin s).2) =
      lines_read (trace s) ++ take k stdin /\
    forall i line, stdin !! i = Some line -> is_exit_command line = true ->
                   k <= S i.
Proof.
  revert s. induction stdin as [|line rest IH]; intros s.
  - exists 0. split; [|intros i l Hl; by rewrite lookup_nil in Hl].
    cbn [chat_loop]. unfold bind, input. cbn [snd trace log logs].
    rewrite lines_read_app. cbn. by rewrite app_nil_r.
  - rewrite chat_loop_cons. pose proof (turn_lines_read env line s) as Hread.
    destruct (turn env line s) as [[[]|e] s'] eqn:Hturn; cbn [snd] in *.
    + destruct (IH s') as (k & Hk & Hexit). exists (S k). split.
      * rewrite Hk, Hread, <- app_assoc. done.
      * intros [|i] l Hl Hl'; cbn in Hl.
        -- injection Hl as ->. rewrite turn_exit_run in Hturn by done. discriminate.
        -- specialize (Hexit i l Hl Hl'). lia.
    + exists 1. split; [by rewrite Hread|]. intros i l _ _. lia.
    + exists 1. split; [by rewrite Hread|]. intros i l _ _. lia.
Qed.

Lemma lines_are_read_in_order_witness :
  exists k,
    lines_read (trace (chat_loop Scenario.world ["hello"; "Exit"; "bad"]
                         Scenario.ready).2) =
      lines_read (trace Scenario.ready) ++ take k ["hello"; "Exit"; "bad"] /\
    k <= 2.
Proof.
  destruct (lines_are_read_in_order Scenario.world ["hello"; "Exit"; "bad"]
              Scenario.ready) as (k & Hk & Hexit).
  exists k. split; [exact Hk|]. apply (Hexit 1 "Exit"); reflexivity.
Defined.

Lemma count_if_app f a b : count_if f (a ++ b) = count_if f a + count_if f b.
Proof. unfold count_if. by rewrite filter_app, length_app. Qed.

Lemma count_if_cons f ev tr :
  count_if f (ev :: tr) = (if f ev then 1 else 0) + count_if f tr.
Proof.
  unfold count_if. rewrite filter_cons. destruct (f ev); [|done].
  by rewrite decide_True.
Qed.

Lemma count_if_nil f : count_if f [] = 0.
Proof. reflexivity. Qed.

Lemma count_if_none f evs :
  Forall (fun ev => f ev = false) evs -> count_if f evs = 0.
Proof.
  intros H. induction H as [|ev evs Hev _ IH]; [done|].
  by rewrite count_if_cons, Hev, IH.
Qed.

Lemma count_service_recorder_events env n text :
  count_if is_service_call (recorder_events env n text) = 0.
Proof.
  apply count_if_none. eapply Forall_impl; [apply recorder_events_escalation|].
  intros ev Hev. by destruct ev.
Qed.

Lemma count_completion_recorder_events env n text :
  count_if is_completion (recorder_events env n text) = 0.
Proof.
  apply count_if_none. eapply Forall_impl; [apply recorder_events_escalation|].
  intros ev Hev. by destruct ev.
Qed.

Lemma count_service_gate_events text o :
  count_if is_service_call (gate_events text o) = 1.
Proof. unfold gate_events. by destruct (gate_error o). Qed.

Lemma count_completion_gate_events text o :
  count_if is_completion (gate_events text o) = 0.
Proof. unfold gate_events. by destruct (gate_error o). Qed.

Ltac count_events :=
  repeat first
    [ rewrite count_if_app | rewrite count_if_cons | rewrite count_if_nil
    | rewrite count_service_recorder_events
    | rewrite count_completion_recorder_events
    | rewrite count_service_gate_events
    | rewrite count_completion_gate_events ];
  cbn [is_completion is_service_call].



(** ** Exit keywords and blank replies *)

Lemma lower_char_idem c : Py.lower_char (Py.lower_char c) = Py.lower_char c.
Proof. destruct c as [[] [] [] [] [] [] [] []]; reflexivity. Qed.

Lemma lower_idem s : Py.lower (Py.lower s) = Py.lower s.
Proof.
  induction s as [|c s IH]; [done|]. cbn [Py.lower]. by rewrite lower_char_idem, IH.
Qed.

Lemma lower_length s : String.length (Py.lower s) = String.length s.
Proof. induction s as [|c s IH]; [done|]. cbn. by rewrite IH. Qed.

(** X11: whether a line is an exit keyword does not depend on the case
    of its letters, and only lines of exactly four characters are: a
    keyword with white space around it is an ordinary line. *)
Theorem exit_keyword_is_exact (line : string) :
  is_exit_command (Py.lower line) = is_exit_command line /\
  (is_exit_command line = true -> String.length line = 4).
Proof.
  split.
  - unfold is_exit_command. by rewrite lower_idem.
  - intros [H|H]%is_exit_command_spec;
      apply (f_equal String.length) in H; by rewrite lower_length in H.
Qed.

Lemma exit_keyword_is_exact_witness : String.length "QuIt" = 4.
Proof. apply (exit_keyword_is_exact "QuIt"). reflexivity. Defined.

Lemma strip_all_space raw : Py.all_space raw = true -> Py.strip raw = "".
Proof.
  intros H. unfold Py.strip. destruct raw as [|c raw]; [done|].
  cbn [Py.rstrip]. by rewrite H.
Qed.

(** X12: a reply that is empty or made of white space only becomes the
    empty text: the gate is asked about the empty text and, when it
    clears it, an assistant message with empty content enters the
    history and a line with nothing after [Assistant: ] is printed. *)
Theorem blank_reply (env : Env) (line raw : string) (s : State)
    (response : ChatCompletion) (choice : Choice) (others : list Choice) :
  is_exit_command line = false ->
  verdict (user_check env line s) = false ->
  completion env line s = Returns response ->
  choices response = choice :: others ->
  reply_content (message choice) = Some raw ->
  Py.all_space raw = true ->
  verdict (reply_check env "" s) = false ->
  turn env line s =
  (Returns Continue,
   {| messages := messages s ++ [user_message line; assistant_message ""];
      files := files s;
      trace := trace s ++
        [EvInput "User: " (Some line);
         EvModerate line (user_check env line s);
         EvComplete (messages s ++ [user_message line]) (Returns response);
         EvModerate "" (reply_check env "" s);
         EvPrint ("Assistant: " +:+ Py.nl)] |}).
Proof.
  intros Hexit Hv Hc Hch Hraw Hblank Hv2.
  rewrite (turn_reply_shown_run env line s "") by
    (try done; rewrite Hc; unfold completion_reply;
     by rewrite Hch, Hraw, strip_all_space).
  by rewrite Hc.
Qed.

Lemma blank_reply_witness :
  turn Corner.world_blank_reply "hello" Scenario.ready =
  (Returns Continue,
   {| messages := [system_message; user_message "hello"; assistant_message ""];
      files := ∅;
      trace := trace Scenario.ready ++
        [EvInput "User: " (Some "hello");
         EvModerate "hello" Scenario.clean_answer;
         EvComplete [system_message; user_message "hello"]
           (Scenario.reply_answer ("   " +:+ Py.nl));
         EvModerate "" Scenario.clean_answer;
         EvPrint ("Assistant: " +:+ Py.nl)] |}).
Proof.
  apply (blank_reply Corner.world_blank_reply "hello" ("   " +:+ Py.nl)
           Scenario.ready
           {| choices := [{| message := {| reply_content := Some ("   " +:+ Py.nl) |} |}] |}
           {| message := {| reply_content := Some ("   " +:+ Py.nl) |} |} []);
    reflexivity.
Defined.

(** ** Artifact names and files *)

Lemma strftime_inj d1 d2 :
  valid_datetime d1 -> valid_datetime d2 -> strftime d1 = strftime d2 -> d1 = d2.
Proof.
  intros H1 H2 H. apply read_timestamp_strftime in H1, H2.
  rewrite H in H1. congruence.
Qed.

Lemma artifact_name_inj a b : artifact_name a = artifact_name b -> a = b.
Proof.
  unfold artifact_name. intros H. apply String.app_inj in H.
  by apply string_app_inj_r in H.
Qed.

Lemma after_write_other filename data a (fs : gmap string string) name :
  name <> filename -> after_write filename data a fs !! name = fs !! name.
Proof.
  intros Hne. destruct a as [|e [d|]]; cbn [after_write];
    [by apply lookup_insert_ne|by apply lookup_insert_ne|done].
Qed.

(** X13: artifacts written at different seconds have different names, so
    a later escalation, whether its own write goes through or fails,
    leaves the artifact an earlier one wrote as it was: only two events
    within the same second share a file. *)
Theorem different_seconds_different_files (env : Env) (text1 text2 : string)
    (s : State) :
  let s1 := (record_flagged_content env text1 s).2 in
  let d1 := datetime_now env (length (trace s)) in
  let d2 := datetime_now env (length (trace s1)) in
  valid_datetime d1 -> valid_datetime d2 -> d1 <> d2 ->
  file_write env (1 + length (trace s)) (artifact_name (strftime d1))
    (artifact_body (strftime d1) text1) = Written ->
  artifact_name (strftime d1) <> artifact_name (strftime d2) /\
  files (record_flagged_content env text2 s1).2 !! artifact_name (strftime d1) =
    Some (artifact_body (strftime d1) text1).
Proof.
  intros s1 d1 d2 Hv1 Hv2 Hne Hw.
  assert (Hnames : artifact_name (strftime d1) <> artifact_name (strftime d2)).
  { intros H%artifact_name_inj. by apply strftime_inj in H. }
  split; [done|]. rewrite record_files. unfold recorder_file. fold d2.
  rewrite after_write_other by done. subst s1. rewrite record_files.
  unfold recorder_file, recorder_write. fold d1.
  change (S (length (trace s))) with (1 + length (trace s)). rewrite Hw.
  apply lookup_insert_eq.
Qed.

Lemma different_seconds_different_files_witness :
  "flagged_event_20240307_120000.txt" <> "flagged_event_20240307_120001.txt" /\
  files (record_flagged_content Corner.world_ticking "worse"
           (record_flagged_content Corner.world_ticking "bad" Scenario.ready).2).2
    !! "flagged_event_20240307_120000.txt" =
    Some (artifact_body "20240307_120000" "bad").
Proof.
  apply (different_seconds_different_files Corner.world_ticking "bad" "worse"
           Scenario.ready).
  - unfold valid_datetime. vm_compute. repeat split; congruence.
  - unfold valid_datetime. vm_compute. repeat split; congruence.
  - vm_compute. congruence.
  - reflexivity.
Defined.

(** ** What a session does to the directory *)

Lemma session_escalations env fs stdin :
  exists escs,
    marks (trace (run_chatbot env stdin (initial_state fs)).2) =
      flat_map escalation_marks escs /\
    files (run_chatbot env stdin (initial_state fs)).2 =
      foldl escalation_file fs escs.
Proof.
  apply (run_chatbot_invariant env
           (fun s => exists escs,
              marks (trace s) = flat_map escalation_marks escs /\
              files s = foldl escalation_file fs escs)).
  - by exists [].
  - intros s Hs. rewrite startup_run in Hs.
    destruct (getenv_OPENAI_API_KEY env) as [[|c k]|]; simplify_eq.
    by exists [].
  - intros s line (escs & Hm & Hf).
    destruct (turn_escalations env line s)
      as (evs & escs' & -> & Hm' & _ & _ & _ & ->).
    exists (escs ++ escs'). by rewrite marks_app, flat_map_app, foldl_app, Hm, Hm', Hf.
  - intros s (escs & Hm & Hf). exists escs. cbn [trace files logs].
    rewrite marks_app, Hm. cbn. by rewrite app_nil_r.
Qed.

Lemma artifact_write_escalation_free ev : written_name ev = None -> artifact_write ev.
Proof. intros H name. by rewrite H. Qed.

Lemma artifact_write_recorder_events env n text :
  Forall artifact_write (recorder_events env n text).
Proof.
  eapply Forall_impl; [apply recorder_events_written_name|].
  intros ev Hev name Hname. rewrite (Hev name Hname).
  exists (strftime (datetime_now env n)). split; [reflexivity|apply strftime_length].
Qed.

Lemma artifact_write_gate_events text o : Forall artifact_write (gate_events text o).
Proof.
  unfold gate_events.
  destruct (gate_error o); repeat constructor; by apply artifact_write_escalation_free.
Qed.

Ltac artifact_writes :=
  repeat first
    [ apply artifact_write_gate_events
    | apply artifact_write_recorder_events
    | apply Forall_nil_2
    | apply Forall_app_2
    | apply Forall_cons_2
    | by apply artifact_write_escalation_free ].

Lemma turn_artifact_writes env line s :
  exists evs, trace (turn env line s).2 = trace s ++ evs /\
              Forall artifact_write evs.
Proof.
  destruct (is_exit_command line) eqn:Hexit.
  { rewrite turn_exit_run by done. cbn [snd trace logs].
    eexists. split; [done|]. artifact_writes. }
  turn_cases env line s; cbn [snd trace logs];
    rewrite ?record_trace; unfold user_blocked_state, reply_blocked_state;
    cbn [trace logs]; rewrite <- ?app_assoc;
    (eexists; split; [reflexivity|]); artifact_writes.
Qed.

(** X14: the only files a session itself opens for writing are
    artifacts: every write of a session, whether it went through or
    failed, is to a file named [flagged_event_], fifteen characters of
    timestamp, [.txt].  What the git commands do to the repository is
    outside this statement. *)
Theorem session_writes_only_artifacts (env : Env) (fs : gmap string string)
    (stdin : list string) :
  Forall
    (fun ev =>
       forall name, written_name ev = Some name ->
       exists timestamp,
         name = "flagged_event_" +:+ timestamp +:+ ".txt" /\
         String.length timestamp = 15)
    (trace (run_chatbot env stdin (initial_state fs)).2).
Proof.
  apply (run_chatbot_invariant env (fun s => Forall artifact_write (trace s))).
  - constructor.
  - intros s Hs. rewrite startup_run in Hs.
    destruct (getenv_OPENAI_API_KEY env) as [[|c k]|]; simplify_eq.
    cbn [trace initial_state app]. artifact_writes.
  - intros s line Hs. destruct (turn_artifact_writes env line s) as (evs & -> & Hevs).
    by apply Forall_app.
  - intros s Hs. cbn [trace logs]. apply Forall_app. split; [done|].
    artifact_writes.
Qed.

Lemma session_writes_only_artifacts_witness :
  Forall
    (fun ev =>
       forall name, written_name ev = Some name ->
       exists timestamp,
         name = "flagged_event_" +:+ timestamp +:+ ".txt" /\
         String.length timestamp = 15)
    (trace (run_chatbot Scenario.world ["bad"; "provoke"; "quit"]
              (initial_state ∅)).2).
Proof.
  apply (session_writes_only_artifacts Scenario.world ∅ ["bad"; "provoke"; "quit"]).
Defined.

Lemma marks_no_flag tr text :
  Forall (fun ev => is_flagged_verdict ev = false) tr -> MFlagged text ∉ marks tr.
Proof.
  intros H. induction H as [|ev tr Hev _ IH]; [by rewrite marks_nil; apply not_elem_of_nil|].
  rewrite marks_cons. intros [Hin|Hin]%elem_of_app; [|by apply IH].
  destruct ev; cbn in Hin, Hev;
    try (by apply elem_of_nil in Hin);
    try (apply list_elem_of_singleton in Hin; discriminate).
  rewrite Hev in Hin. by apply elem_of_nil in Hin.
Qed.

Lemma marks_empty tr :
  marks tr = [] -> Forall (fun ev => is_run ev = false /\ is_write ev = false) tr.
Proof.
  induction tr as [|ev tr IH]; [constructor|].
  rewrite marks_cons. intros [Hev Htr]%app_eq_nil. constructor; [|by apply IH].
  by destruct ev.
Qed.

(** X15: a session in which no verdict of the gate is flagged leaves the
    working directory exactly as it found it and runs no command: no
    artifact is written and git is never called. *)
Theorem clean_session_leaves_no_record (env : Env) (fs : gmap string string)
    (stdin : list string) :
  let s := (run_chatbot env stdin (initial_state fs)).2 in
  Forall (fun ev => is_flagged_verdict ev = false) (trace s) ->
  files s = fs /\
  Forall (fun ev => is_run ev = false /\ is_write ev = false) (trace s).
Proof.
  intros s Hclean. subst s.
  destruct (session_escalations env fs stdin) as (escs & Hm & Hf).
  destruct escs as [|e escs].
  - split; [by rewrite Hf|]. by apply marks_empty.
  - exfalso. apply (marks_no_flag _ (esc_text e) Hclean).
    rewrite Hm. cbn [flat_map escalation_marks app]. apply list_elem_of_here.
Qed.

Lemma clean_session_leaves_no_record_witness :
  files (run_chatbot Scenario.world ["hello"; "quit"]
           (initial_state {[ "notes.txt" := "keep" ]})).2 =
    {[ "notes.txt" := "keep" ]} /\
  Forall (fun ev => is_run ev = false /\ is_write ev = false)
    (trace (run_chatbot Scenario.world ["hello"; "quit"]
              (initial_state {[ "notes.txt" := "keep" ]})).2).
Proof.
  apply (clean_session_leaves_no_record Scenario.world {[ "notes.txt" := "keep" ]}
           ["hello"; "quit"]).
  vm_compute. repeat constructor.
Defined.

(** ** What reaches the completion service *)

Lemma turn_all_flagged env line s :
  (forall n text, verdict (moderations_create env n text) = true) ->
  messages (turn env line s).2 = messages s /\
  exists evs, trace (turn env line s).2 = trace s ++ evs /\
              count_if is_completion evs = 0.
Proof.
  intros Hall. destruct (is_exit_command line) eqn:Hexit.
  { rewrite turn_exit_run by done. cbn [snd trace messages logs].
    split; [done|]. eexists. split; [done|]. by count_events. }
  assert (Hv : verdict (user_check env line s) = true) by apply Hall.
  rewrite (turn_user_blocked_run env line s) by assumption. cbn [snd].
  rewrite record_messages, record_trace. unfold user_blocked_state.
  cbn [trace messages logs]. rewrite <- app_assoc.
  split; [done|]. eexists. split; [done|]. by count_events.
Qed.

(** X16: when the gate flags whatever it is asked about, as it does while
    the moderation service is down, a session sends nothing to the
    completion service and its history never grows beyond the system
    message. *)
Theorem all_flagged_nothing_forwarded (env : Env) (fs : gmap string string)
    (stdin : list string) :
  (forall n text, verdict (moderations_create env n text) = true) ->
  let s := (run_chatbot env stdin (initial_state fs)).2 in
  count_if is_completion (trace s) = 0 /\
  (messages s = [] \/ messages s = [system_message]).
Proof.
  intros Hall.
  apply (run_chatbot_invariant env
           (fun s => count_if is_completion (trace s) = 0 /\
                     (messages s = [] \/ messages s = [system_message]))).
  - split; [done|by left].
  - intros s Hs. rewrite startup_run in Hs.
    destruct (getenv_OPENAI_API_KEY env) as [[|c k]|]; simplify_eq.
    split; [done|by right].
  - intros s line [Hc Hm].
    destruct (turn_all_flagged env line s Hall) as (-> & evs & -> & Hevs).
    split; [|done]. rewrite count_if_app. lia.
  - intros s [Hc Hm]. cbn [trace messages logs]. split; [|done].
    count_events. lia.
Qed.

Lemma all_flagged_nothing_forwarded_witness :
  count_if is_completion
    (trace (run_chatbot Scenario.world_moderation_down ["hello"; "again"; "quit"]
              (initial_state ∅)).2) = 0 /\
  (messages (run_chatbot Scenario.world_moderation_down ["hello"; "again"; "quit"]
               (initial_state ∅)).2 = [] \/
   messages (run_chatbot Scenario.world_moderation_down ["hello"; "again"; "quit"]
               (initial_state ∅)).2 = [system_message]).
Proof.
  apply (all_flagged_nothing_forwarded Scenario.world_moderation_down ∅
           ["hello"; "again"; "quit"]).
  intros n text. reflexivity.
Defined.

Lemma exchanges_snoc pairs line reply :
  exchanges pairs ++ [user_message line; assistant_message reply] =
  exchanges (pairs ++ [(line, reply)]).
Proof.
  unfold exchanges. rewrite flat_map_app. reflexivity.
Qed.

Lemma well_formed_escalation ev : is_escalation_event ev -> well_formed_request ev.
Proof. by destruct ev. Qed.

Lemma well_formed_recorder_events env n text :
  Forall well_formed_request (recorder_events env n text).
Proof.
  eapply Forall_impl; [apply recorder_events_escalation|].
  apply well_formed_escalation.
Qed.

Lemma well_formed_gate_events text o : Forall well_formed_request (gate_events text o).
Proof. unfold gate_events. destruct (gate_error o); by repeat constructor. Qed.

Ltac well_formed Hreq :=
  repeat first
    [ apply well_formed_gate_events
    | apply well_formed_recorder_events
    | exact Hreq
    | exact I
    | apply Forall_nil_2
    | apply Forall_app_2
    | apply Forall_cons_2 ].

(** One pass from a history of complete exchanges: its request is well
    formed, and when the loop goes on the history holds complete
    exchanges again. *)
Lemma turn_exchanges env line s pairs :
  messages s = exchanges pairs ->
  (exists evs, trace (turn env line s).2 = trace s ++ evs /\
               Forall well_formed_request evs) /\
  ((turn env line s).1 = Returns Continue ->
   exists pairs', messages (turn env line s).2 = exchanges pairs').
Proof.
  intros Hm. destruct (is_exit_command line) eqn:Hexit.
  { rewrite turn_exit_run by done. cbn [fst snd trace logs]. split; [|done].
    eexists. split; [done|]. by repeat constructor. }
  assert (Hreq : well_formed_request
            (EvComplete (messages s ++ [user_message line]) (completion env line s))).
  { cbn. exists pairs, line. by rewrite Hm. }
  turn_cases env line s; cbn [fst snd trace messages logs];
    rewrite ?record_trace, ?record_messages;
    unfold user_blocked_state, reply_blocked_state;
    cbn [trace messages logs]; rewrite <- ?app_assoc.
  - split; [|by eauto]. eexists. split; [done|]. well_formed Hreq.
  - split; [eexists; split; [done|]; well_formed Hreq|].
    intros _. exists (pairs ++ [(line, "[Blocked content]")]).
    by rewrite Hm, <- exchanges_snoc.
  - split; [|done]. eexists. split; [done|]. well_formed Hreq.
  - split; [eexists; split; [done|]; well_formed Hreq|].
    intros _. exists (pairs ++ [(line, reply)]). by rewrite Hm, exchanges_snoc.
  - split; [|done]. eexists. split; [done|]. well_formed Hreq.
Qed.

Lemma at_prompt_exchanges env fs s :
  at_prompt env fs s -> exists pairs, messages s = exchanges pairs.
Proof.
  induction 1 as [s Hs|s line s' _ [pairs IH] Hturn].
  - rewrite startup_run in Hs.
    destruct (getenv_OPENAI_API_KEY env) as [[|c k]|]; simplify_eq.
    by exists [].
  - destruct (turn_exchanges env line s pairs IH) as [_ Hnext].
    rewrite Hturn in Hnext. by apply Hnext.
Qed.

(** X17: whenever the loop is about to read a line, the history is the
    system message followed by complete exchanges: a user message and
    then an assistant message, each time.  A blocked line leaves no
    entry, a blocked reply leaves the placeholder in the assistant's
    place, so two user messages never follow each other. *)
Theorem history_alternates (env : Env) (fs : gmap string string) (s : State) :
  at_prompt env fs s ->
  exists pairs : list (string * string),
    messages s = exchanges pairs /\
    length (messages s) = S (2 * length pairs).
Proof.
  intros [pairs Hm]%at_prompt_exchanges. exists pairs. split; [done|].
  rewrite Hm. unfold exchanges. cbn [length]. f_equal. clear Hm.
  induction pairs as [|p pairs IH]; [done|]. cbn [flat_map app length]. lia.
Qed.

Lemma history_alternates_witness :
  exists pairs : list (string * string),
    messages (turn Scenario.world "provoke" (turn Scenario.world "hello" Scenario.ready).2).2
      = exchanges pairs /\
    length (messages (turn Scenario.world "provoke"
                        (turn Scenario.world "hello" Scenario.ready).2).2) =
      S (2 * length pairs).
Proof.
  apply (history_alternates Scenario.world ∅).
  apply (at_prompt_next _ _ (turn Scenario.world "hello" Scenario.ready).2 "provoke").
  - apply (at_prompt_next _ _ Scenario.ready "hello").
    + apply at_prompt_start. vm_compute. reflexivity.
    + vm_compute. reflexivity.
  - vm_compute. reflexivity.
Defined.

(** X18: every request a session sends to the completion service is well
    formed: the system message first, then complete exchanges of a user
    and an assistant message, then the user line just read as the last
    message. *)
Theorem requests_are_well_formed (env : Env) (fs : gmap string string)
    (stdin : list string) :
  Forall well_formed_request (trace (run_chatbot env stdin (initial_state fs)).2).
Proof.
  unfold run_chatbot, bind.
  destruct (startup env (initial_state fs)) as [[u|e] s] eqn:Hs; cbn [snd];
    rewrite startup_run in Hs;
    destruct (getenv_OPENAI_API_KEY env) as [[|c k]|]; simplify_eq;
    try by constructor.
  apply (chat_loop_prompt_invariant env
           (fun s => (exists pairs, messages s = exchanges pairs) /\
                     Forall well_formed_request (trace s))
           (fun s => Forall well_formed_request (trace s))).
  - intros s line [[pairs Hm] Htr].
    destruct (turn_exchanges env line s pairs Hm) as [(evs & Hevs & Hok) Hnext].
    assert (Hall : Forall well_formed_request (trace (turn env line s).2)).
    { rewrite Hevs. by apply Forall_app. }
    destruct (turn env line s) as [[[]|e] s']; cbn [fst snd] in *; auto.
  - intros s [_ Htr]. cbn [trace logs]. apply Forall_app. split; [done|].
    by repeat constructor.
  - split; [by exists []|]. by repeat constructor.
Qed.

(** ** A flagged reply *)

(** X19: when the gate flags the reply, the pass prints
    [Assistant: [Model output flagged by moderation. Not displayed.]],
    stores [[Blocked content]] in the history in the reply's place and
    runs the Recorder on the reply; the loop goes on to read the next
    line when the Recorder returns. *)
Theorem flagged_reply_blocked (env : Env) (line reply : string)
    (rest : list string) (s : State) :
  let history := messages s ++ [{| role := "user"; content := line |}] in
  let before :=
    {| messages :=
         history ++ [{| role := "assistant"; content := "[Blocked content]" |}];
       files := files s;
       trace := trace s ++
         [EvInput "User: " (Some line);
          EvModerate line (user_check env line s);
          EvComplete history (completion env line s)] ++
         gate_events reply (reply_check env reply s) ++
         [EvPrint "Assistant: [Model output flagged by moderation. Not displayed.]"] |} in
  is_exit_command line = false ->
  verdict (user_check env line s) = false ->
  completion_reply (completion env line s) = Returns reply ->
  verdict (reply_check env reply s) = true ->
  (turn env line s).2 =
    match (record_flagged_content env reply before).1 with
    | Returns _ => (record_flagged_content env reply before).2
    | Raises e =>
        logs [EvPrint ("Error: " +:+ exc_str e)]
          (record_flagged_content env reply before).2
    end /\
  (forall u,
     (record_flagged_content env reply before).1 = Returns u ->
     chat_loop env (line :: rest) s =
     chat_loop env rest (record_flagged_content env reply before).2).
Proof.
  intros history before Hexit Hv Hc Hv2.
  assert (Hbefore : before = reply_blocked_state env line reply s).
  { subst before history. unfold reply_blocked_state. f_equal.
    by rewrite <- app_assoc. }
  rewrite Hbefore. split.
  - rewrite (turn_reply_blocked_run env line s reply) by done.
    by destruct (record_flagged_content env reply _).1.
  - intros u Hu. rewrite chat_loop_cons.
    rewrite (turn_reply_blocked_run env line s reply) by done. by rewrite Hu.
Qed.

Lemma flagged_reply_blocked_witness :
  chat_loop Scenario.world ["provoke"; "hello"] Scenario.ready =
  chat_loop Scenario.world ["hello"]
    (record_flagged_content Scenario.world "rude reply"
       {| messages :=
            [system_message; {| role := "user"; content := "provoke" |};
             {| role := "assistant"; content := "[Blocked content]" |}];
          files := ∅;
          trace := trace Scenario.ready ++
            [EvInput "User: " (Some "provoke");
             EvModerate "provoke" Scenario.clean_answer;
             EvComplete [system_message; {| role := "user"; content := "provoke" |}]
               (Scenario.reply_answer (" rude reply" +:+ Py.nl));
             EvModerate "rude reply" Scenario.flagged_answer;
             EvPrint "Assistant: [Model output flagged by moderation. Not displayed.]"] |}).2.
Proof.
  apply (proj2 (flagged_reply_blocked Scenario.world "provoke" "rude reply"
                  ["hello"] Scenario.ready eq_refl eq_refl eq_refl eq_refl) tt).
  reflexivity.
Defined.
